(* Shallow embedding of the Intel IGD passthrough quirks of hw/vfio/igd.c
   (generation classifier, stolen-memory sizing, OpRegion setup, LPC/host
   bridge setup, and the BAR0 / BAR4 quirk installers), with the properties
   of its specification. *)

From Stdlib Require Import ZArith List String Bool Lia.
Import ListNotations.
Open Scope string_scope.
Open Scope Z_scope.

(* ------------------------------------------------------------------------- *)
(** * Machine integers *)

(** [uint64_t] arithmetic wraps modulo 2^64, [uint32_t] modulo 2^32. *)
Definition u64 (x : Z) : Z := x mod 2 ^ 64.
Definition u32 (x : Z) : Z := x mod 2 ^ 32.

(** Conversion of a [ssize_t] result to [int] (two's complement truncation). *)
Definition to_int (x : Z) : Z :=
  let r := x mod 2 ^ 32 in if r <? 2 ^ 31 then r else r - 2 ^ 32.

(** qemu/units.h *)
Definition MiB : Z := 1024 * 1024.

(* ------------------------------------------------------------------------- *)
(** * igd_gen *)

(** The [switch (vdev->device_id & 0xff00)] of [igd_gen]: each group of
    [case] labels returns one generation, no label returns -1. *)
Definition igd_gen_switch (key : Z) : Z :=
  if existsb (Z.eqb key) [0x0100] then 6                          (* SandyBridge, IvyBridge *)
  else if existsb (Z.eqb key) [0x0400; 0x0a00; 0x0c00; 0x0d00; 0x0f00] then 7
  else if existsb (Z.eqb key) [0x1600; 0x2200] then 8
  else if existsb (Z.eqb key) [0x1900; 0x3100; 0x5900; 0x3e00; 0x9B00] then 9
  else if existsb (Z.eqb key) [0x8A00; 0x4500; 0x4E00] then 11
  else if existsb (Z.eqb key) [0x9A00; 0x4C00; 0x4600; 0xA700] then 12
  else -1.

(** [static int igd_gen(VFIOPCIDevice *vdev)], as a function of
    [vdev->device_id] (a [uint16_t]). *)
Definition igd_gen (device_id : Z) : Z :=
  if Z.land device_id 0xffe =? 0xa84 then 9
  else igd_gen_switch (Z.land device_id 0xff00).

(** The classification table of the specification, by top byte of the ID. *)
Definition spec_gen_table : list (Z * Z) :=
  [(0x01, 6);
   (0x04, 7); (0x0a, 7); (0x0c, 7); (0x0d, 7); (0x0f, 7);
   (0x16, 8); (0x22, 8);
   (0x19, 9); (0x31, 9); (0x59, 9); (0x3e, 9); (0x9B, 9);
   (0x8A, 11); (0x45, 11); (0x4E, 11);
   (0x9A, 12); (0x4C, 12); (0x46, 12); (0xA7, 12)].

Fixpoint table_lookup (t : list (Z * Z)) (k : Z) : Z :=
  match t with
  | [] => -1
  | (k', g) :: t' => if k =? k' then g else table_lookup t' k
  end.

(** The classifier as the specification words it, for a given reading
    [mask] of the bits that the generation-9 priority rule compares. *)
Definition spec_classify (mask device_id : Z) : Z :=
  if Z.land device_id mask =? 0xa84 then 9
  else table_lookup spec_gen_table (Z.shiftr device_id 8).

(* ------------------------------------------------------------------------- *)
(** * igd_stolen_memory_size *)

Definition IGD_GMCH_GEN6_GMS_SHIFT : Z := 3.
Definition IGD_GMCH_GEN6_GMS_MASK : Z := 0x1f.
Definition IGD_GMCH_GEN8_GMS_SHIFT : Z := 8.
Definition IGD_GMCH_GEN8_GMS_MASK : Z := 0xff.

(** [static uint64_t igd_stolen_memory_size(int gen, uint32_t gmch)] *)
Definition igd_stolen_memory_size (gen gmch : Z) : Z :=
  let gms :=
    if gen <? 8
    then Z.land (Z.shiftr gmch IGD_GMCH_GEN6_GMS_SHIFT) IGD_GMCH_GEN6_GMS_MASK
    else Z.land (Z.shiftr gmch IGD_GMCH_GEN8_GMS_SHIFT) IGD_GMCH_GEN8_GMS_MASK in
  if gen <? 9 then u64 (gms * 32 * MiB)
  else if gms <? 0xf0 then u64 (gms * 32 * MiB)
  else u64 ((gms - 0xf0 + 1) * 4 * MiB).

(** The stolen-memory field as the specification describes it: a 5-bit
    field at bit 3 before generation 8, an 8-bit field at bit 8 after. *)
Definition spec_gms_field (gen gmch : Z) : Z :=
  if gen <? 8 then (gmch / 2 ^ 3) mod 2 ^ 5 else (gmch / 2 ^ 8) mod 2 ^ 8.

(** The size mapping of the specification for a field value, in exact
    integers. *)
Definition spec_size_of_field (gen field : Z) : Z :=
  if gen <? 9 then field * 32 * MiB
  else if field <? 0xf0 then field * 32 * MiB
  else (field - 0xf0 + 1) * 4 * MiB.

Definition spec_stolen_size (gen gmch : Z) : Z :=
  spec_size_of_field gen (spec_gms_field gen gmch).


(* ------------------------------------------------------------------------- *)
(** * Config-space byte arrays *)

(** A config-space array ([pdev.config], [pdev.wmask],
    [emulated_config_bits]): the byte at each offset. *)
Definition bytes := Z -> Z.

(** Little-endian store of the [n] low bytes of [v] at [off]. *)
Definition store_le (a : bytes) (off n v : Z) : bytes :=
  fun i => if (off <=? i) && (i <? off + n)
           then Z.land (Z.shiftr v (8 * (i - off))) 0xff else a i.

(** include/hw/pci/pci.h: [pci_set_long] takes a [uint32_t],
    [pci_set_quad] a [uint64_t]. *)
Definition pci_set_long (a : bytes) (off v : Z) : bytes := store_le a off 4 (u32 v).
Definition pci_set_quad (a : bytes) (off v : Z) : bytes := store_le a off 8 (u64 v).

Fixpoint load_le (a : bytes) (off : Z) (n : nat) : Z :=
  match n with
  | O => 0
  | S n' => a off + 256 * load_le a (off + 1) n'
  end.

Definition pci_get_long (a : bytes) (off : Z) : Z := load_le a off 4.
Definition pci_get_quad (a : bytes) (off : Z) : Z := load_le a off 8.

(** The [n] bytes of [v] in memory, little-endian ([cpu_to_le64]). *)
Fixpoint le_bytes (n : nat) (v : Z) : list Z :=
  match n with
  | O => []
  | S n' => Z.land v 0xff :: le_bytes n' (Z.shiftr v 8)
  end.

(** The little-endian value ([le64_to_cpu]) of a list of bytes. *)
Fixpoint le_value (l : list Z) : Z :=
  match l with [] => 0 | b :: l' => b + 256 * le_value l' end.

(** The bytes [0 .. len - 1] of a buffer, as handed to [fw_cfg_add_file]. *)
Definition buffer_contents (buf : bytes) (len : Z) : list Z :=
  map (fun i => buf (Z.of_nat i)) (seq 0 (Z.to_nat len)).

(* ------------------------------------------------------------------------- *)
(** * PCI and VFIO constants *)

Definition PCI_DEVFN (slot func : Z) : Z :=
  Z.lor (Z.shiftl (Z.land slot 0x1f) 3) (Z.land func 0x07).

Definition PCI_VENDOR_ID_INTEL : Z := 0x8086.
Definition PCI_VENDOR_ID : Z := 0x00.
Definition PCI_DEVICE_ID : Z := 0x02.
Definition PCI_REVISION_ID : Z := 0x08.
Definition PCI_SUBSYSTEM_VENDOR_ID : Z := 0x2c.
Definition PCI_SUBSYSTEM_ID : Z := 0x2e.
Definition VFIO_PCI_ROM_REGION_INDEX : Z := 6.
Definition ENODEV : Z := 19.

Definition IGD_ASLS : Z := 0xfc.
Definition IGD_GMCH : Z := 0x50.
Definition IGD_BDSM : Z := 0x5c.
Definition IGD_BDSM_GEN11 : Z := 0xc0.

Definition IGD_GGC_MMIO_OFFSET : Z := 0x108040.
Definition IGD_BDSM_MMIO_OFFSET : Z := 0x1080C0.

Definition TYPE_VFIO_PCI_IGD_LPC_BRIDGE : string := "vfio-pci-igd-lpc-bridge".

(* ------------------------------------------------------------------------- *)
(** * Device, bus and machine state *)

(** [struct vfio_region_info], the fields the quirks use. *)
Record vfio_region_info := { ri_size : Z; ri_offset : Z }.

(** The vendor-specific region subtypes queried through
    [vfio_get_dev_region_info]. *)
Inductive igd_subtype :=
| VFIO_REGION_SUBTYPE_INTEL_IGD_OPREGION
| VFIO_REGION_SUBTYPE_INTEL_IGD_HOST_CFG
| VFIO_REGION_SUBTYPE_INTEL_IGD_LPC_CFG.

(** The calls into the VFIO kernel interface, in the order they are made. *)
Inductive io_event :=
| IoDevRegionInfo (st : igd_subtype)       (* vfio_get_dev_region_info *)
| IoRegionInfo (index : Z)                 (* vfio_get_region_info *)
| IoPread (len offset : Z)                 (* pread on vbasedev.fd *)
| IoPopulateVga.                           (* vfio_populate_vga *)

(** The errors set through [Error **errp]. *)
Inductive igd_error :=
| UnsupportedHotplug    (* "... is not supported on hotplugged device" *)
| RegionUnavailable     (* "Device does not supports IGD OpRegion feature" *)
| ReadFailed            (* "failed to read IGD OpRegion" *)
| AddressConflict       (* "Cannot create LPC bridge due to existing device at 1f.0" *)
| LpcCapMissing         (* "IGD LPC bridge access is not supported by kernel" *)
| HostCapMissing        (* "IGD host bridge access is not supported by kernel" *)
| LpcBridgeFailed       (* "Failed to create/modify LPC bridge for IGD" *)
| HostBridgeFailed      (* "Failed to modify host bridge for IGD" *)
| VgaPopulateFailed.    (* set by vfio_populate_vga *)

(** Result of a [bool f(..., Error **errp)] function. *)
Inductive igd_result := Success | Failure (e : igd_error).

(** Lines written by [error_report] and friends. *)
Inductive msg :=
| MsgUnsupportedGen                  (* "... is unsupported in legacy mode" *)
| MsgNoRom                           (* "... has no ROM, legacy mode disabled" *)
| MsgHotplugged                      (* "... hotplugged, ROM disabled" *)
| MsgVgaFailed                       (* "... failed to enable VGA access" *)
| MsgError (e : igd_error)           (* error_report_err / error_reportf_err *)
| MsgInvalidParameter (name range : string)  (* QERR_INVALID_PARAMETER_VALUE *)
| MsgCopyFailed                      (* "IGD copy failed: %m" *)
| MsgNoHostBridge.                   (* "Can't find host bridge" *)

(** A device on the root bus: its QOM type with its ancestors and
    interfaces, and its config space. *)
Record PCIDevice := { pd_types : list string; pd_config : bytes }.

Definition set_pd_config (d : PCIDevice) (c : bytes) : PCIDevice :=
  Build_PCIDevice (pd_types d) c.

(** [object_dynamic_cast(OBJECT(d), ty) != NULL] *)
Definition object_dynamic_cast (d : PCIDevice) (ty : string) : bool :=
  existsb (String.eqb ty) (pd_types d).

(** [VFIOConfigMirrorQuirk] together with the size of its memory region. *)
Record VFIOConfigMirrorQuirk := {
  mirror_bar : Z;
  mirror_offset : Z;
  mirror_config_offset : Z;
  mirror_size : Z;          (* size given to memory_region_init_io *)
  mirror_name : string
}.

(** The fields of [VFIOPCIDevice] the quirks read or write.  The device
    sits on the root bus at [devfn]. *)
Record VFIOPCIDevice := {
  vendor_id : Z;
  device_id : Z;
  is_vga : bool;                      (* vfio_is_vga *)
  devfn : Z;
  hotplugged : bool;                  (* pdev.qdev.hotplugged *)
  romfile : bool;                     (* pdev.romfile != NULL *)
  igd_gms : Z;                        (* x-igd-gms, uint32_t *)
  vga : bool;                         (* vdev->vga != NULL *)
  rom_read_failed : bool;
  igd_opregion : option (list Z);
  config : bytes;
  wmask : bytes;
  emulated_config_bits : bytes;
  bar_quirks : Z -> list VFIOConfigMirrorQuirk   (* vdev->bars[nr].quirks *)
}.

(** The machine: the assigned device, the root PCI bus by devfn, the
    fw_cfg files, the error log and the trace of VFIO calls. *)
Record Machine := {
  vdev : VFIOPCIDevice;
  root_bus : Z -> option PCIDevice;
  fw_cfg : list (string * list Z);
  log : list msg;
  io : list io_event
}.

(** What the host side answers: region descriptors, [pread] results and
    contents of the device file, [errno], the GMCH value returned by
    [vfio_pci_read_config], whether [vfio_populate_vga] succeeds, and the
    config space a freshly created LPC bridge starts with. *)
Record Host := {
  dev_region_info : igd_subtype -> option vfio_region_info;
  rom_region_info : option vfio_region_info;
  pread_count : Z -> Z -> Z;          (* len -> offset -> ssize_t result *)
  fd_bytes : Z -> Z;
  errno : Z;
  gmch_config : Z;
  populate_vga_ok : bool;
  lpc_bridge_config : bytes
}.

Definition set_igd_gms (v : VFIOPCIDevice) (x : Z) : VFIOPCIDevice :=
  Build_VFIOPCIDevice (vendor_id v) (device_id v) (is_vga v) (devfn v) (hotplugged v) (romfile v) x (vga v) (rom_read_failed v) (igd_opregion v) (config v) (wmask v) (emulated_config_bits v) (bar_quirks v).

Definition set_vga (v : VFIOPCIDevice) (x : bool) : VFIOPCIDevice :=
  Build_VFIOPCIDevice (vendor_id v) (device_id v) (is_vga v) (devfn v) (hotplugged v) (romfile v) (igd_gms v) x (rom_read_failed v) (igd_opregion v) (config v) (wmask v) (emulated_config_bits v) (bar_quirks v).

Definition set_rom_read_failed (v : VFIOPCIDevice) (x : bool) : VFIOPCIDevice :=
  Build_VFIOPCIDevice (vendor_id v) (device_id v) (is_vga v) (devfn v) (hotplugged v) (romfile v) (igd_gms v) (vga v) x (igd_opregion v) (config v) (wmask v) (emulated_config_bits v) (bar_quirks v).

Definition set_igd_opregion (v : VFIOPCIDevice) (x : option (list Z)) : VFIOPCIDevice :=
  Build_VFIOPCIDevice (vendor_id v) (device_id v) (is_vga v) (devfn v) (hotplugged v) (romfile v) (igd_gms v) (vga v) (rom_read_failed v) x (config v) (wmask v) (emulated_config_bits v) (bar_quirks v).

Definition set_config (v : VFIOPCIDevice) (x : bytes) : VFIOPCIDevice :=
  Build_VFIOPCIDevice (vendor_id v) (device_id v) (is_vga v) (devfn v) (hotplugged v) (romfile v) (igd_gms v) (vga v) (rom_read_failed v) (igd_opregion v) x (wmask v) (emulated_config_bits v) (bar_quirks v).

Definition set_wmask (v : VFIOPCIDevice) (x : bytes) : VFIOPCIDevice :=
  Build_VFIOPCIDevice (vendor_id v) (device_id v) (is_vga v) (devfn v) (hotplugged v) (romfile v) (igd_gms v) (vga v) (rom_read_failed v) (igd_opregion v) (config v) x (emulated_config_bits v) (bar_quirks v).

Definition set_emulated_config_bits (v : VFIOPCIDevice) (x : bytes) : VFIOPCIDevice :=
  Build_VFIOPCIDevice (vendor_id v) (device_id v) (is_vga v) (devfn v) (hotplugged v) (romfile v) (igd_gms v) (vga v) (rom_read_failed v) (igd_opregion v) (config v) (wmask v) x (bar_quirks v).

Definition set_bar_quirks (v : VFIOPCIDevice) (x : Z -> list VFIOConfigMirrorQuirk) : VFIOPCIDevice :=
  Build_VFIOPCIDevice (vendor_id v) (device_id v) (is_vga v) (devfn v) (hotplugged v) (romfile v) (igd_gms v) (vga v) (rom_read_failed v) (igd_opregion v) (config v) (wmask v) (emulated_config_bits v) x.

Definition set_vdev (m : Machine) (x : VFIOPCIDevice) : Machine :=
  Build_Machine x (root_bus m) (fw_cfg m) (log m) (io m).

Definition set_root_bus (m : Machine) (x : Z -> option PCIDevice) : Machine :=
  Build_Machine (vdev m) x (fw_cfg m) (log m) (io m).

Definition set_fw_cfg (m : Machine) (x : list (string * list Z)) : Machine :=
  Build_Machine (vdev m) (root_bus m) x (log m) (io m).

Definition set_log (m : Machine) (x : list msg) : Machine :=
  Build_Machine (vdev m) (root_bus m) (fw_cfg m) x (io m).

Definition set_io (m : Machine) (x : list io_event) : Machine :=
  Build_Machine (vdev m) (root_bus m) (fw_cfg m) (log m) x.

Definition update_vdev (m : Machine) (f : VFIOPCIDevice -> VFIOPCIDevice) : Machine :=
  set_vdev m (f (vdev m)).

Definition add_log (m : Machine) (x : msg) : Machine := set_log m (log m ++ [x]).
Definition add_io (m : Machine) (x : io_event) : Machine := set_io m (io m ++ [x]).

(** [fw_cfg_add_file(fw_cfg_find(), name, data, len)] *)
Definition fw_cfg_add_file (m : Machine) (name : string) (data : list Z) : Machine :=
  set_fw_cfg m (fw_cfg m ++ [(name, data)]).

Definition set_bus_dev (m : Machine) (df : Z) (d : PCIDevice) : Machine :=
  set_root_bus m (fun x => if x =? df then Some d else root_bus m x).

(** [pci_set_long] of the same register in the three config arrays. *)
Definition set_reg_long (v : VFIOPCIDevice) (off val wm emu : Z) : VFIOPCIDevice :=
  let v := set_config v (pci_set_long (config v) off val) in
  let v := set_wmask v (pci_set_long (wmask v) off wm) in
  set_emulated_config_bits v (pci_set_long (emulated_config_bits v) off emu).

Definition set_reg_quad (v : VFIOPCIDevice) (off val wm emu : Z) : VFIOPCIDevice :=
  let v := set_config v (pci_set_quad (config v) off val) in
  let v := set_wmask v (pci_set_quad (wmask v) off wm) in
  set_emulated_config_bits v (pci_set_quad (emulated_config_bits v) off emu).

(* ------------------------------------------------------------------------- *)
(** * Host calls *)

(** [pread(vbasedev.fd, buf + dst, len, off)]: the host decides how many
    bytes come back; that many bytes of the device file land in [buf]. *)
Definition pread (h : Host) (buf : bytes) (dst len off : Z) : bytes * Z :=
  let r := pread_count h len off in
  (fun i => if (dst <=? i) && (i <? dst + Z.min r len)
            then fd_bytes h (off + (i - dst)) else buf i, r).

(** [vfio_get_dev_region_info(&vdev->vbasedev, ..., subtype, &info)] *)
Definition vfio_get_dev_region_info (h : Host) (m : Machine) (st : igd_subtype)
  : Machine * option vfio_region_info :=
  (add_io m (IoDevRegionInfo st), dev_region_info h st).

(** [vfio_populate_vga(vdev, &err)] *)
Definition vfio_populate_vga (h : Host) (m : Machine) : Machine * bool :=
  let m := add_io m IoPopulateVga in
  if populate_vga_ok h then (update_vdev m (fun v => set_vga v true), true)
  else (m, false).

(* ------------------------------------------------------------------------- *)
(** * OpRegion *)

(** [vfio_pci_igd_opregion_init] *)
Definition vfio_pci_igd_opregion_init (h : Host) (m : Machine)
    (info : vfio_region_info) : Machine * igd_result :=
  (* vdev->igd_opregion = g_malloc0(info->size) *)
  let buf0 : bytes := fun _ => 0 in
  let '(buf, r) := pread h buf0 0 (ri_size info) (ri_offset info) in
  let m := add_io m (IoPread (ri_size info) (ri_offset info)) in
  let ret := to_int r in
  (* ret != info->size: the int is converted to __u64 *)
  if negb (u64 ret =? ri_size info) then
    (update_vdev m (fun v => set_igd_opregion v None), Failure ReadFailed)
  else
    let opregion := buffer_contents buf (ri_size info) in
    let m := update_vdev m (fun v => set_igd_opregion v (Some opregion)) in
    let m := fw_cfg_add_file m "etc/igd-opregion" opregion in
    let m := update_vdev m (fun v => set_reg_long v IGD_ASLS 0 (Z.lnot 0) (Z.lnot 0)) in
    (m, Success).

(** [vfio_pci_igd_setup_opregion] *)
Definition vfio_pci_igd_setup_opregion (h : Host) (m : Machine) : Machine * igd_result :=
  if hotplugged (vdev m) then (m, Failure UnsupportedHotplug) else
  let '(m, opregion) :=
    vfio_get_dev_region_info h m VFIO_REGION_SUBTYPE_INTEL_IGD_OPREGION in
  match opregion with
  | None => (m, Failure RegionUnavailable)
  | Some info => vfio_pci_igd_opregion_init h m info
  end.

(* ------------------------------------------------------------------------- *)
(** * Host bridge and LPC bridge *)

(** [IGDHostInfo] is a pair (offset, len). *)
Definition igd_host_bridge_infos : list (Z * Z) :=
  [(PCI_REVISION_ID, 2); (PCI_SUBSYSTEM_VENDOR_ID, 2); (PCI_SUBSYSTEM_ID, 2)].

Definition igd_lpc_bridge_infos : list (Z * Z) :=
  [(PCI_VENDOR_ID, 2); (PCI_DEVICE_ID, 2); (PCI_REVISION_ID, 2);
   (PCI_SUBSYSTEM_VENDOR_ID, 2); (PCI_SUBSYSTEM_ID, 2)].

(** [vfio_pci_igd_copy]: copies into the config space [cfg] of the target
    device; the updated array is returned with the result code. *)
Fixpoint vfio_pci_igd_copy (h : Host) (m : Machine) (cfg : bytes)
    (info : vfio_region_info) (list : list (Z * Z)) : Machine * bytes * Z :=
  match list with
  | [] => (m, cfg, 0)
  | (off, len) :: rest =>
      let '(cfg, r) := pread h cfg off len (ri_offset info + off) in
      let m := add_io m (IoPread len (ri_offset info + off)) in
      if negb (to_int r =? len) then (add_log m MsgCopyFailed, cfg, - errno h)
      else vfio_pci_igd_copy h m cfg info rest
  end.

(** The [pread] of one [IGDHostInfo] entry, as [vfio_pci_igd_copy] issues it. *)
Definition copy_read (info : vfio_region_info) (e : Z * Z) : io_event :=
  IoPread (snd e) (ri_offset info + fst e).

(** Whether config offset [i] lies in the register of entry [e]. *)
Definition covers (i : Z) (e : Z * Z) : bool := (fst e <=? i) && (i <? fst e + snd e).

(** [vfio_pci_igd_host_init] *)
Definition vfio_pci_igd_host_init (h : Host) (m : Machine) (info : vfio_region_info)
  : Machine * Z :=
  match root_bus m (PCI_DEVFN 0 0) with
  | None => (add_log m MsgNoHostBridge, - ENODEV)
  | Some host_bridge =>
      let '(m, cfg, ret) :=
        vfio_pci_igd_copy h m (pd_config host_bridge) info igd_host_bridge_infos in
      (set_bus_dev m (PCI_DEVFN 0 0) (set_pd_config host_bridge cfg), ret)
  end.

(** The error set by [vfio_pci_igd_lpc_bridge_realize]. *)
Inductive lpc_realize_error :=
| LpcBridgeWrongAddress.   (* "VFIO dummy ISA/LPC bridge must have address 1f.0" *)

(** [vfio_pci_igd_lpc_bridge_realize], for a bridge realized at [devfn]. *)
Definition vfio_pci_igd_lpc_bridge_realize (devfn : Z) : option lpc_realize_error :=
  if negb (devfn =? PCI_DEVFN 0x1f 0) then Some LpcBridgeWrongAddress else None.

(** [pci_create_simple(bus, PCI_DEVFN(0x1f, 0), "vfio-pci-igd-lpc-bridge")];
    its realize accepts the address 1f.0. *)
Definition new_lpc_bridge (h : Host) : PCIDevice :=
  Build_PCIDevice
    [TYPE_VFIO_PCI_IGD_LPC_BRIDGE; "pci-device"; "device"; "object";
     "conventional-pci-device"]
    (lpc_bridge_config h).

(** [vfio_pci_igd_lpc_init] *)
Definition vfio_pci_igd_lpc_init (h : Host) (m : Machine) (info : vfio_region_info)
  : Machine * Z :=
  let '(m, lpc_bridge) :=
    match root_bus m (PCI_DEVFN 0x1f 0) with
    | Some d => (m, d)
    | None => let d := new_lpc_bridge h in (set_bus_dev m (PCI_DEVFN 0x1f 0) d, d)
    end in
  let '(m, cfg, ret) :=
    vfio_pci_igd_copy h m (pd_config lpc_bridge) info igd_lpc_bridge_infos in
  (set_bus_dev m (PCI_DEVFN 0x1f 0) (set_pd_config lpc_bridge cfg), ret).

(** [vfio_pci_igd_setup_lpc_bridge] *)
Definition vfio_pci_igd_setup_lpc_bridge (h : Host) (m : Machine)
  : Machine * igd_result :=
  if hotplugged (vdev m) then (m, Failure UnsupportedHotplug) else
  let conflict :=
    match root_bus m (PCI_DEVFN 0x1f 0) with
    | Some lpc_bridge =>
        negb (object_dynamic_cast lpc_bridge TYPE_VFIO_PCI_IGD_LPC_BRIDGE)
    | None => false
    end in
  if conflict then (m, Failure AddressConflict) else
  let '(m, lpc) := vfio_get_dev_region_info h m VFIO_REGION_SUBTYPE_INTEL_IGD_LPC_CFG in
  match lpc with
  | None => (m, Failure LpcCapMissing)
  | Some lpc =>
      let '(m, host) :=
        vfio_get_dev_region_info h m VFIO_REGION_SUBTYPE_INTEL_IGD_HOST_CFG in
      match host with
      | None => (m, Failure HostCapMissing)
      | Some host =>
          let '(m, ret) := vfio_pci_igd_lpc_init h m lpc in
          if negb (ret =? 0) then (m, Failure LpcBridgeFailed) else
          let '(m, ret) := vfio_pci_igd_host_init h m host in
          if negb (ret =? 0) then (m, Failure HostBridgeFailed) else
          (m, Success)
      end
  end.

(* ------------------------------------------------------------------------- *)
(** * BAR quirks *)

(** [vfio_pci_is(vdev, vendor, PCI_ANY_ID)] *)
Definition vfio_pci_is (v : VFIOPCIDevice) (vendor : Z) : bool := vendor_id v =? vendor.

(** [&vdev->pdev == pci_find_device(root bus, 0, PCI_DEVFN(0x2, 0))]: the
    device at 00:02.0 is this one exactly when it sits at that devfn. *)
Definition at_igd_address (v : VFIOPCIDevice) : bool := devfn v =? PCI_DEVFN 0x2 0.

(** [QLIST_INSERT_HEAD(&vdev->bars[nr].quirks, q, next)] *)
Definition insert_quirk (m : Machine) (nr : Z) (q : VFIOConfigMirrorQuirk) : Machine :=
  update_vdev m (fun v =>
    set_bar_quirks v (fun b => if b =? nr then q :: bar_quirks v b else bar_quirks v b)).

(** [vfio_probe_igd_bar0_quirk] *)
Definition vfio_probe_igd_bar0_quirk (m : Machine) (nr : Z) : Machine :=
  let v := vdev m in
  if negb (vfio_pci_is v PCI_VENDOR_ID_INTEL) || negb (is_vga v) ||
     negb (nr =? 0) || negb (at_igd_address v) then m else
  let gen := igd_gen (device_id v) in
  if gen <? 6 then m else
  let ggc_mirror :=
    {| mirror_bar := nr; mirror_offset := IGD_GGC_MMIO_OFFSET;
       mirror_config_offset := IGD_GMCH; mirror_size := 2;
       mirror_name := "vfio-igd-ggc-quirk" |} in
  let m := insert_quirk m nr ggc_mirror in
  let bdsm_mirror :=
    {| mirror_bar := nr; mirror_offset := IGD_BDSM_MMIO_OFFSET;
       mirror_config_offset := if gen <? 11 then IGD_BDSM else IGD_BDSM_GEN11;
       mirror_size := if gen <? 11 then 4 else 8;
       mirror_name := "vfio-igd-bdsm-quirk" |} in
  insert_quirk m nr bdsm_mirror.

(** The [if (vdev->igd_gms) { ... }] block of [vfio_probe_igd_bar4_quirk]:
    returns the possibly updated [uint32_t gmch]. *)
Definition vfio_igd_apply_gms (m : Machine) (gen gmch : Z) : Machine * Z :=
  let gms := igd_gms (vdev m) in
  if negb (gms =? 0) then
    if gen <? 8 then
      if gms <=? 0x10 then
        let gmch := Z.land gmch
          (u32 (Z.lnot (Z.shiftl IGD_GMCH_GEN6_GMS_MASK IGD_GMCH_GEN6_GMS_SHIFT))) in
        (m, Z.lor gmch (u32 (Z.shiftl gms IGD_GMCH_GEN6_GMS_SHIFT)))
      else (add_log m (MsgInvalidParameter "x-igd-gms" "0~0x10"), gmch)
    else
      if gms <=? 0x40 then
        let gmch := Z.land gmch
          (u32 (Z.lnot (Z.shiftl IGD_GMCH_GEN8_GMS_MASK IGD_GMCH_GEN8_GMS_SHIFT))) in
        (m, Z.lor gmch (u32 (Z.shiftl gms IGD_GMCH_GEN8_GMS_SHIFT)))
      else (add_log m (MsgInvalidParameter "x-igd-gms" "0~0x40"), gmch)
  else (m, gmch).

(** The [return] points of [vfio_probe_igd_bar4_quirk]. *)
Inductive bar4_exit :=
| Bar4NotIgd | Bar4Unsupported | Bar4NoRom | Bar4Hotplugged | Bar4NoVga
| Bar4OpRegionFailed | Bar4LpcFailed | Bar4Enabled.

(** [vfio_probe_igd_bar4_quirk] *)
Definition vfio_probe_igd_bar4_quirk (h : Host) (m : Machine) (nr : Z)
  : Machine * bar4_exit :=
  let v := vdev m in
  if negb (vfio_pci_is v PCI_VENDOR_ID_INTEL) || negb (is_vga v) ||
     negb (nr =? 4) || negb (at_igd_address v) then (m, Bar4NotIgd) else
  let gen := igd_gen (device_id v) in
  if gen =? -1 then (add_log m MsgUnsupportedGen, Bar4Unsupported) else
  let m := add_io m (IoRegionInfo VFIO_PCI_ROM_REGION_INDEX) in
  let no_rom :=
    match rom_region_info h with
    | None => true
    | Some rom => ri_size rom =? 0
    end in
  if no_rom && negb (romfile v) then (add_log m MsgNoRom, Bar4NoRom) else
  if hotplugged v then
    (add_log (update_vdev m (fun v => set_rom_read_failed v true)) MsgHotplugged,
     Bar4Hotplugged) else
  let gmch := u32 (gmch_config h) in
  let '(m, vga_failed) :=
    if negb (Z.testbit gmch 1) && negb (vga (vdev m))
    then let '(m, ok) := vfio_populate_vga h m in (m, negb ok)
    else (m, false) in
  if vga_failed then
    (add_log (add_log m (MsgError VgaPopulateFailed)) MsgVgaFailed, Bar4NoVga) else
  let '(m, r) := vfio_pci_igd_setup_opregion h m in
  match r with
  | Failure e => (add_log m (MsgError e), Bar4OpRegionFailed)
  | Success =>
  let '(m, r) := vfio_pci_igd_setup_lpc_bridge h m in
  match r with
  | Failure e => (add_log m (MsgError e), Bar4LpcFailed)
  | Success =>
  let '(m, gmch) := vfio_igd_apply_gms m gen gmch in
  let gms_size := igd_stolen_memory_size gen gmch in
  let m := fw_cfg_add_file m "etc/igd-bdsm-size" (le_bytes 8 gms_size) in
  (* GMCH is read-only, emulated *)
  let m := update_vdev m (fun v => set_reg_long v IGD_GMCH gmch 0 (Z.lnot 0)) in
  (* BDSM is read-write, emulated *)
  let m :=
    if gen <? 11
    then update_vdev m (fun v => set_reg_long v IGD_BDSM 0 (Z.lnot 0) (Z.lnot 0))
    else update_vdev m (fun v => set_reg_quad v IGD_BDSM_GEN11 0 (Z.lnot 0) (Z.lnot 0)) in
  (m, Bar4Enabled)
  end
  end.
(* ------------------------------------------------------------------------- *)
(** * Observations on runs *)

Definition is_invalid_param (x : msg) : bool :=
  match x with MsgInvalidParameter _ _ => true | _ => false end.

(** The override messages of a log. *)
Definition invalid_params (l : list msg) : list msg := filter is_invalid_param l.

(** The bits of GMCH outside the stolen-memory field of generation [gen]. *)
Definition gms_field_mask (gen : Z) : Z :=
  if gen <? 8 then Z.shiftl (Z.ones 5) 3 else Z.shiftl (Z.ones 8) 8.

(** The machine with x-igd-gms set to [x]. *)
Definition with_igd_gms (m : Machine) (x : Z) : Machine :=
  set_vdev m (set_igd_gms (vdev m) x).


(* ------------------------------------------------------------------------- *)
(** * Sample configurations *)

Definition zero_bytes : bytes := fun _ => 0.

(** An IGD with device ID [did] at 00:02.0, x-igd-gms = [gms]. *)
Definition sample_vdev (did gms : Z) (hot : bool) : VFIOPCIDevice :=
  Build_VFIOPCIDevice PCI_VENDOR_ID_INTEL did true (PCI_DEVFN 0x2 0) hot false gms
    false false None zero_bytes zero_bytes zero_bytes (fun _ => []).

Definition sample_host_bridge : PCIDevice :=
  Build_PCIDevice ["i440FX"; "pci-device"; "device"; "object"] zero_bytes.

(** A foreign device at 1f.0, as on Q35. *)
Definition sample_ich9_lpc : PCIDevice :=
  Build_PCIDevice ["ICH9-LPC"; "pci-device"; "device"; "object"] zero_bytes.

(** The root bus holds the host bridge at 00.0 and [lpc] at 1f.0. *)
Definition sample_machine (v : VFIOPCIDevice) (lpc : option PCIDevice) : Machine :=
  {| vdev := v;
     root_bus := fun df => if df =? PCI_DEVFN 0 0 then Some sample_host_bridge
                           else if df =? PCI_DEVFN 0x1f 0 then lpc else None;
     fw_cfg := []; log := []; io := [] |}.

(** A host exposing every IGD region, reading [short] bytes less than
    asked for, with GMCH value [gmch]. *)
Definition sample_host (gmch short : Z) : Host :=
  {| dev_region_info := fun st =>
       match st with
       | VFIO_REGION_SUBTYPE_INTEL_IGD_OPREGION => Some {| ri_size := 0x2000; ri_offset := 0x90000 |}
       | VFIO_REGION_SUBTYPE_INTEL_IGD_HOST_CFG => Some {| ri_size := 0x100; ri_offset := 0xa0000 |}
       | VFIO_REGION_SUBTYPE_INTEL_IGD_LPC_CFG => Some {| ri_size := 0x100; ri_offset := 0xb0000 |}
       end;
     rom_region_info := Some {| ri_size := 0x10000; ri_offset := 0x60000 |};
     pread_count := fun len _ => len - short;
     fd_bytes := fun off => Z.land off 0xff;
     errno := 5;
     gmch_config := gmch;
     populate_vga_ok := true;
     lpc_bridge_config := zero_bytes |}.

(** A host like [sample_host 0 0] whose [pread] at file offset [off0]
    returns one byte, and whose [errno] is [err]. *)
Definition sample_host_short_at (off0 err : Z) : Host :=
  {| dev_region_info := dev_region_info (sample_host 0 0);
     rom_region_info := rom_region_info (sample_host 0 0);
     pread_count := fun len off => if off =? off0 then 1 else len;
     fd_bytes := fd_bytes (sample_host 0 0);
     errno := err;
     gmch_config := 0;
     populate_vga_ok := true;
     lpc_bridge_config := zero_bytes |}.

(* ------------------------------------------------------------------------- *)
(** * Exhaustive checks over a range of integers *)

Fixpoint check_from (P : Z -> bool) (z : Z) (n : nat) : bool :=
  match n with
  | O => true
  | S n' => P z && check_from P (z + 1) n'
  end.

Lemma check_from_sound (P : Z -> bool) (n : nat) :
  forall z, check_from P z n = true ->
  forall x, z <= x < z + Z.of_nat n -> P x = true.
Proof.
  induction n as [|n IH]; intros z Hc x Hx; simpl in *.
  - lia.
  - apply andb_prop in Hc as [Hz Hrest].
    destruct (Z.eq_dec x z) as [->|Hne]; [exact Hz|].
    apply (IH (z + 1) Hrest); lia.
Qed.

Example igd_gen_skylake : igd_gen 0x1912 = 9.
Proof. reflexivity. Qed.
Example igd_gen_broxton : igd_gen 0x0a84 = 9 /\ igd_gen 0x5a85 = 9 /\ igd_gen 0x0a16 = 7.
Proof. repeat split; reflexivity. Qed.
Example stolen_size_f5 : igd_stolen_memory_size 9 0xF500 = 24 * MiB.
Proof. reflexivity. Qed.

(* ------------------------------------------------------------------------- *)
(** * Generation classifier *)

(** C1 (amended): on every 16-bit device ID, [igd_gen] is the rule "if
    bits 11..1 of the ID are those of 0xa84 (ID & 0xffe = 0xa84, that is
    0x?a84 and 0x?a85), then 9; else the generation the top byte has in the
    table; else -1".  The priority rule looks at bits 11..1, not at the
    low 11 bits. *)
Theorem igd_gen_classification (device_id : Z) :
  0 <= device_id < 2 ^ 16 ->
  igd_gen device_id = spec_classify 0xffe device_id.
Proof.
  intros Hd.
  assert (Hc : check_from (fun d => igd_gen d =? spec_classify 0xffe d)
                          0 (Z.to_nat (2 ^ 16)) = true)
    by (vm_compute; reflexivity).
  apply Z.eqb_eq, (check_from_sound _ _ 0 Hc).
  rewrite Z2Nat.id; lia.
Qed.

Lemma igd_gen_classification_witness :
  (0 <= 0x5a85 < 2 ^ 16) /\ igd_gen 0x5a85 = spec_classify 0xffe 0x5a85.
Proof.
  split; [lia|].
  apply igd_gen_classification; lia.
Defined.

(** C1 (counterexample): the claim's reading of the priority rule as "the
    low 11 bits equal 0xa84" (or the low 12 bits) is refuted by ID 0x0a85:
    [igd_gen] returns 9 while that reading gives the table's 7 for top
    byte 0x0a. *)
Lemma igd_gen_low_bits_counterexample :
  igd_gen 0x0a85 = 9 /\
  table_lookup spec_gen_table 0x0a = 7 /\
  ~ (forall d, 0 <= d < 2 ^ 16 -> igd_gen d = spec_classify (Z.ones 11) d) /\
  ~ (forall d, 0 <= d < 2 ^ 16 -> igd_gen d = spec_classify (Z.ones 12) d).
Proof.
  split; [reflexivity|]. split; [reflexivity|].
  split; intros Hall; specialize (Hall 0x0a85 ltac:(lia));
    vm_compute in Hall; discriminate.
Qed.

(** C9: [igd_gen] only returns -1, 6, 7, 8, 9, 11 or 12 (never 10), and
    each of these seven values is returned for some 16-bit device ID. *)
Theorem igd_gen_codomain :
  (forall d, In (igd_gen d) [-1; 6; 7; 8; 9; 11; 12] /\ igd_gen d <> 10) /\
  (forall g, In g [-1; 6; 7; 8; 9; 11; 12] ->
             exists d, 0 <= d < 2 ^ 16 /\ igd_gen d = g).
Proof.
  split.
  - intros d. unfold igd_gen, igd_gen_switch.
    repeat match goal with |- context [if ?b then _ else _] => destruct b end;
      simpl; split; (tauto || discriminate).
  - intros g Hg; simpl in Hg.
    destruct Hg as [<-|[<-|[<-|[<-|[<-|[<-|[<-|[]]]]]]]].
    + exists 0; split; [lia|reflexivity].
    + exists 0x0102; split; [lia|reflexivity].
    + exists 0x0412; split; [lia|reflexivity].
    + exists 0x1612; split; [lia|reflexivity].
    + exists 0x1912; split; [lia|reflexivity].
    + exists 0x8A52; split; [lia|reflexivity].
    + exists 0x9A49; split; [lia|reflexivity].
Qed.

(* ------------------------------------------------------------------------- *)
(** * Stolen-memory size *)

Lemma gms_field_code (gen gmch : Z) :
  (if gen <? 8
   then Z.land (Z.shiftr gmch IGD_GMCH_GEN6_GMS_SHIFT) IGD_GMCH_GEN6_GMS_MASK
   else Z.land (Z.shiftr gmch IGD_GMCH_GEN8_GMS_SHIFT) IGD_GMCH_GEN8_GMS_MASK)
  = spec_gms_field gen gmch.
Proof.
  unfold spec_gms_field, IGD_GMCH_GEN6_GMS_SHIFT, IGD_GMCH_GEN6_GMS_MASK,
    IGD_GMCH_GEN8_GMS_SHIFT, IGD_GMCH_GEN8_GMS_MASK.
  destruct (gen <? 8); rewrite Z.shiftr_div_pow2 by lia.
  - change 0x1f with (Z.ones 5). apply Z.land_ones. lia.
  - change 0xff with (Z.ones 8). apply Z.land_ones. lia.
Qed.

Lemma spec_gms_field_range (gen gmch : Z) : 0 <= spec_gms_field gen gmch < 256.
Proof.
  unfold spec_gms_field. destruct (gen <? 8).
  - pose proof (Z.mod_pos_bound (gmch / 2 ^ 3) (2 ^ 5) ltac:(lia)). lia.
  - pose proof (Z.mod_pos_bound (gmch / 2 ^ 8) (2 ^ 8) ltac:(lia)). lia.
Qed.

(** C2: for every generation and every GMCH value, the code's result is the
    specification's exact-integer size: 5-bit field at bit 3 below
    generation 8, 8-bit field at bit 8 from 8 on; field * 32 MiB below 9;
    from 9 on, field * 32 MiB under 0xf0 and (field - 0xf0 + 1) * 4 MiB
    above.  No 64-bit wrap-around occurs.  Field 0xF5 at generation 9 gives
    24 MiB, field 0xE0 gives 0xE0 * 32 MiB. *)
Theorem igd_stolen_memory_size_spec (gen gmch : Z) :
  igd_stolen_memory_size gen gmch = spec_stolen_size gen gmch /\
  igd_stolen_memory_size 9 (Z.shiftl 0xF5 8) = 24 * MiB /\
  igd_stolen_memory_size 9 (Z.shiftl 0xE0 8) = 0xE0 * 32 * MiB.
Proof.
  split; [|split; reflexivity].
  unfold igd_stolen_memory_size, spec_stolen_size, spec_size_of_field.
  rewrite gms_field_code.
  pose proof (spec_gms_field_range gen gmch) as Hf.
  set (f := spec_gms_field gen gmch) in *.
  unfold u64, MiB.
  destruct (gen <? 9); [|destruct (f <? 0xf0) eqn:Hlt];
    try apply Z.ltb_ge in Hlt; apply Z.mod_small; lia.
Qed.

(* ------------------------------------------------------------------------- *)
(** * OpRegion setup *)

(** C5: on a hot-added device, OpRegion setup fails with
    UnsupportedHotplug and returns the machine unchanged: no region query
    and no read is made (the VFIO call trace is untouched). *)
Theorem setup_opregion_hotplug (h : Host) (m : Machine) :
  hotplugged (vdev m) = true ->
  vfio_pci_igd_setup_opregion h m = (m, Failure UnsupportedHotplug).
Proof.
  intros Hhot. unfold vfio_pci_igd_setup_opregion. rewrite Hhot. reflexivity.
Qed.

Lemma setup_opregion_hotplug_witness :
  hotplugged (vdev (sample_machine (sample_vdev 0x1912 0 true) None)) = true /\
  vfio_pci_igd_setup_opregion (sample_host 0 0)
    (sample_machine (sample_vdev 0x1912 0 true) None)
  = (sample_machine (sample_vdev 0x1912 0 true) None, Failure UnsupportedHotplug).
Proof.
  split; [reflexivity|].
  apply setup_opregion_hotplug. reflexivity.
Defined.

(** A short or failed [pread] (at most [size - 1] bytes, or -1) never
    passes the [ret != info->size] test, once [ret] has gone through [int]
    and back to [__u64]. *)
Lemma short_read_detected (r size : Z) :
  0 <= size < 2 ^ 63 -> -1 <= r < size -> u64 (to_int r) <> size.
Proof.
  intros Hs Hr. unfold to_int, u64.
  pose proof (Z.mod_pos_bound r (2 ^ 32) ltac:(lia)) as Hq.
  assert (Hle : r = -1 \/ r mod 2 ^ 32 <= r).
  { destruct (Z.eq_dec r (-1)) as [E|E]; [now left|right].
    apply Z.mod_le; lia. }
  destruct (r mod 2 ^ 32 <? 2 ^ 31) eqn:Hlt.
  - apply Z.ltb_lt in Hlt. rewrite Z.mod_small by lia.
    destruct Hle as [->|Hle]; [vm_compute in Hlt; discriminate | lia].
  - apply Z.ltb_ge in Hlt.
    rewrite <- (Z.mod_add _ 1 (2 ^ 64)) by lia.
    rewrite Z.mod_small by lia. lia.
Qed.

(** C6: when the OpRegion read returns fewer bytes than the region size
    (a short read, or -1), setup fails with ReadFailed, the device's
    OpRegion buffer is none, no fw_cfg file is added, and the config,
    write-mask and emulated-bits arrays (ASLS included) are unchanged. *)
Theorem setup_opregion_short_read (h : Host) (m : Machine) (info : vfio_region_info) :
  hotplugged (vdev m) = false ->
  dev_region_info h VFIO_REGION_SUBTYPE_INTEL_IGD_OPREGION = Some info ->
  0 <= ri_size info < 2 ^ 63 ->
  -1 <= pread_count h (ri_size info) (ri_offset info) < ri_size info ->
  let (m', r) := vfio_pci_igd_setup_opregion h m in
  r = Failure ReadFailed /\
  igd_opregion (vdev m') = None /\
  fw_cfg m' = fw_cfg m /\
  config (vdev m') = config (vdev m) /\
  wmask (vdev m') = wmask (vdev m) /\
  emulated_config_bits (vdev m') = emulated_config_bits (vdev m).
Proof.
  intros Hhot Hinfo Hsize Hread.
  unfold vfio_pci_igd_setup_opregion, vfio_get_dev_region_info.
  rewrite Hhot, Hinfo.
  unfold vfio_pci_igd_opregion_init, pread.
  pose proof (short_read_detected _ _ Hsize Hread) as Hne.
  apply Z.eqb_neq in Hne. rewrite Hne. simpl.
  repeat split; reflexivity.
Qed.

Lemma setup_opregion_short_read_witness :
  let h := sample_host 0 1 in
  let m := sample_machine (sample_vdev 0x1912 0 false) None in
  let info := {| ri_size := 0x2000; ri_offset := 0x90000 |} in
  (hotplugged (vdev m) = false /\
   dev_region_info h VFIO_REGION_SUBTYPE_INTEL_IGD_OPREGION = Some info /\
   (0 <= ri_size info < 2 ^ 63) /\
   (-1 <= pread_count h (ri_size info) (ri_offset info) < ri_size info)) /\
  (let (m', r) := vfio_pci_igd_setup_opregion h m in
   r = Failure ReadFailed /\
   igd_opregion (vdev m') = None /\
   fw_cfg m' = fw_cfg m /\
   config (vdev m') = config (vdev m) /\
   wmask (vdev m') = wmask (vdev m) /\
   emulated_config_bits (vdev m') = emulated_config_bits (vdev m)).
Proof.
  cbv zeta. split.
  - repeat split; try reflexivity; simpl; lia.
  - apply (setup_opregion_short_read _ _ {| ri_size := 0x2000; ri_offset := 0x90000 |});
      try reflexivity; simpl; lia.
Defined.

(* ------------------------------------------------------------------------- *)
(** * LPC bridge setup *)

(** C7: on a device that is not hot-added, when a device that is not a
    vfio-pci-igd-lpc-bridge sits at 00:1f.0, bridge setup fails with
    AddressConflict and returns the machine unchanged: no config write to
    the host bridge or to any device, no region query, no read. *)
Theorem setup_lpc_bridge_conflict (h : Host) (m : Machine) (d : PCIDevice) :
  hotplugged (vdev m) = false ->
  root_bus m (PCI_DEVFN 0x1f 0) = Some d ->
  object_dynamic_cast d TYPE_VFIO_PCI_IGD_LPC_BRIDGE = false ->
  vfio_pci_igd_setup_lpc_bridge h m = (m, Failure AddressConflict).
Proof.
  intros Hhot Hbus Hcast.
  unfold vfio_pci_igd_setup_lpc_bridge. rewrite Hhot, Hbus, Hcast. reflexivity.
Qed.

Lemma setup_lpc_bridge_conflict_witness :
  let m := sample_machine (sample_vdev 0x1912 0 false) (Some sample_ich9_lpc) in
  (hotplugged (vdev m) = false /\
   root_bus m (PCI_DEVFN 0x1f 0) = Some sample_ich9_lpc /\
   object_dynamic_cast sample_ich9_lpc TYPE_VFIO_PCI_IGD_LPC_BRIDGE = false) /\
  vfio_pci_igd_setup_lpc_bridge (sample_host 0 0) m = (m, Failure AddressConflict).
Proof.
  cbv zeta. split.
  - repeat split; reflexivity.
  - apply (setup_lpc_bridge_conflict _ _ sample_ich9_lpc); reflexivity.
Defined.

(* ------------------------------------------------------------------------- *)
(** * BAR0 quirk *)

(** Below generation 6 the BAR0 quirk leaves the machine as it is. *)
Lemma bar0_quirk_noop (m : Machine) (nr : Z) :
  igd_gen (device_id (vdev m)) < 6 -> vfio_probe_igd_bar0_quirk m nr = m.
Proof.
  intros Hgen. unfold vfio_probe_igd_bar0_quirk.
  destruct (_ || _); [reflexivity|].
  apply Z.ltb_lt in Hgen. rewrite Hgen. reflexivity.
Qed.

(** C8: the BAR0 quirk is a no-op when [igd_gen] is below 6.  Otherwise,
    for an Intel VGA device at 00:02.0 and region 0, it adds exactly two
    mirrors at the head of region 0's quirk list and changes nothing
    else: a 2-byte mirror at MMIO offset 0x108040 of config register GMCH
    (0x50), and a mirror at 0x1080C0 of BDSM, 4 bytes from 0x5C below
    generation 11 and 8 bytes from 0xC0 from generation 11 on. *)
Theorem bar0_quirk_mirrors (m : Machine) (nr : Z) :
  let v := vdev m in
  let gen := igd_gen (device_id v) in
  (gen < 6 -> vfio_probe_igd_bar0_quirk m nr = m) /\
  (vendor_id v = PCI_VENDOR_ID_INTEL -> is_vga v = true -> nr = 0 ->
   devfn v = PCI_DEVFN 0x2 0 -> 6 <= gen ->
   let m' := vfio_probe_igd_bar0_quirk m nr in
   bar_quirks (vdev m') 0 =
     ([{| mirror_bar := 0; mirror_offset := 0x1080C0;
         mirror_config_offset := if gen <? 11 then 0x5C else 0xC0;
         mirror_size := if gen <? 11 then 4 else 8;
         mirror_name := "vfio-igd-bdsm-quirk" |};
      {| mirror_bar := 0; mirror_offset := 0x108040;
         mirror_config_offset := 0x50; mirror_size := 2;
         mirror_name := "vfio-igd-ggc-quirk" |}] ++ bar_quirks v 0)%list /\
   (forall b, b <> 0 -> bar_quirks (vdev m') b = bar_quirks v b) /\
   set_vdev m' (set_bar_quirks (vdev m') (bar_quirks v)) = m).
Proof.
  cbv zeta. split; [apply bar0_quirk_noop|].
  intros Hven Hvga -> Hdf Hgen.
  unfold vfio_probe_igd_bar0_quirk, vfio_pci_is, at_igd_address.
  rewrite Hven, Hvga, Hdf, !Z.eqb_refl. simpl.
  assert (Hg : (igd_gen (device_id (vdev m)) <? 6) = false) by (apply Z.ltb_ge; lia).
  rewrite Hg. simpl.
  split; [reflexivity|split].
  - intros b Hb. apply Z.eqb_neq in Hb. rewrite Hb. reflexivity.
  - destruct m as [[] bus fw lg tr]. reflexivity.
Qed.

Lemma bar0_quirk_mirrors_witness :
  let m := sample_machine (sample_vdev 0x4680 0 false) None in
  (vendor_id (vdev m) = PCI_VENDOR_ID_INTEL /\ is_vga (vdev m) = true /\
   devfn (vdev m) = PCI_DEVFN 0x2 0 /\ 6 <= igd_gen (device_id (vdev m))) /\
  bar_quirks (vdev (vfio_probe_igd_bar0_quirk m 0)) 0 =
    [{| mirror_bar := 0; mirror_offset := 0x1080C0; mirror_config_offset := 0xC0;
        mirror_size := 8; mirror_name := "vfio-igd-bdsm-quirk" |};
     {| mirror_bar := 0; mirror_offset := 0x108040; mirror_config_offset := 0x50;
        mirror_size := 2; mirror_name := "vfio-igd-ggc-quirk" |}].
Proof.
  cbv zeta. split.
  - repeat split; try reflexivity. vm_compute. discriminate.
  - pose proof (proj2 (bar0_quirk_mirrors
                         (sample_machine (sample_vdev 0x4680 0 false) None) 0)
                  eq_refl eq_refl eq_refl eq_refl ltac:(vm_compute; discriminate))
      as [Hq _].
    exact Hq.
Defined.

(* ------------------------------------------------------------------------- *)
(** * Frame lemmas for the BAR4 sequence *)

Lemma invalid_params_app (l1 l2 : list msg) :
  invalid_params (l1 ++ l2) = (invalid_params l1 ++ invalid_params l2)%list.
Proof. apply filter_app. Qed.

(** Appending a message other than an override error. *)
Lemma invalid_params_add_log (m : Machine) (x : msg) :
  is_invalid_param x = false ->
  invalid_params (log (add_log m x)) = invalid_params (log m).
Proof.
  intros Hx. simpl. rewrite invalid_params_app. simpl. rewrite Hx, app_nil_r.
  reflexivity.
Qed.

(** The copy loop leaves the assigned device and the override messages. *)
Lemma igd_copy_frame (h : Host) (info : vfio_region_info) (l : list (Z * Z)) :
  forall m cfg,
  let m' := fst (fst (vfio_pci_igd_copy h m cfg info l)) in
  vdev m' = vdev m /\ invalid_params (log m') = invalid_params (log m).
Proof.
  induction l as [|[off len] l IH]; intros m cfg; cbn [vfio_pci_igd_copy].
  - split; reflexivity.
  - destruct (pread h cfg off len (ri_offset info + off)) as [cfg' r].
    destruct (negb (to_int r =? len)).
    + simpl. split; [reflexivity|]. rewrite invalid_params_app. simpl.
      rewrite app_nil_r. reflexivity.
    + destruct (IH (add_io m (IoPread len (ri_offset info + off))) cfg') as [H1 H2].
      split; [exact H1|]. rewrite H2. reflexivity.
Qed.

(** Bridge setup never touches the assigned device and reports no
    override error. *)
Lemma setup_lpc_bridge_frame (h : Host) (m : Machine) :
  let m' := fst (vfio_pci_igd_setup_lpc_bridge h m) in
  vdev m' = vdev m /\ invalid_params (log m') = invalid_params (log m).
Proof.
  unfold vfio_pci_igd_setup_lpc_bridge.
  destruct (hotplugged (vdev m)); [split; reflexivity|].
  destruct (match root_bus m (PCI_DEVFN 0x1f 0) with
            | Some _ => _ | None => false end); [split; reflexivity|].
  simpl. destruct (dev_region_info h VFIO_REGION_SUBTYPE_INTEL_IGD_LPC_CFG) as [lpc|];
    [|split; reflexivity].
  destruct (dev_region_info h VFIO_REGION_SUBTYPE_INTEL_IGD_HOST_CFG) as [host|];
    [|split; reflexivity].
  unfold vfio_pci_igd_lpc_init.
  set (m1 := add_io (add_io m _) _).
  assert (Hm1 : vdev m1 = vdev m /\ invalid_params (log m1) = invalid_params (log m))
    by (split; reflexivity).
  destruct (match root_bus m1 (PCI_DEVFN 0x1f 0) with
            | Some d => (m1, d) | None => _ end) as [m2 lpc_bridge] eqn:E2.
  assert (Hm2 : vdev m2 = vdev m /\ invalid_params (log m2) = invalid_params (log m)).
  { destruct (root_bus m1 (PCI_DEVFN 0x1f 0)); inversion E2; subst; exact Hm1. }
  pose proof (igd_copy_frame h lpc igd_lpc_bridge_infos m2 (pd_config lpc_bridge)) as Hc.
  destruct (vfio_pci_igd_copy h m2 (pd_config lpc_bridge) lpc igd_lpc_bridge_infos)
    as [[m3 cfg3] ret3]. simpl in Hc.
  set (m4 := set_bus_dev m3 _ _).
  assert (Hm4 : vdev m4 = vdev m /\ invalid_params (log m4) = invalid_params (log m))
    by (simpl; split; [rewrite (proj1 Hc); apply Hm2 | rewrite (proj2 Hc); apply Hm2]).
  destruct (negb (ret3 =? 0)); [exact Hm4|].
  unfold vfio_pci_igd_host_init.
  destruct (root_bus m4 (PCI_DEVFN 0 0)) as [hb|].
  - pose proof (igd_copy_frame h host igd_host_bridge_infos m4 (pd_config hb)) as Hc'.
    destruct (vfio_pci_igd_copy h m4 (pd_config hb) host igd_host_bridge_infos)
      as [[m5 cfg5] ret5]. simpl in Hc'.
    destruct (negb (ret5 =? 0)); simpl;
      (split; [rewrite (proj1 Hc'); apply Hm4 | rewrite (proj2 Hc'); apply Hm4]).
  - simpl. split; [apply Hm4|]. rewrite invalid_params_app. simpl.
    rewrite app_nil_r. apply Hm4.
Qed.

(** OpRegion setup keeps the device ID and x-igd-gms and reports no
    override error. *)
Lemma setup_opregion_frame (h : Host) (m : Machine) :
  let m' := fst (vfio_pci_igd_setup_opregion h m) in
  igd_gms (vdev m') = igd_gms (vdev m) /\
  device_id (vdev m') = device_id (vdev m) /\
  invalid_params (log m') = invalid_params (log m).
Proof.
  unfold vfio_pci_igd_setup_opregion.
  destruct (hotplugged (vdev m)); [repeat split; reflexivity|].
  simpl. destruct (dev_region_info h VFIO_REGION_SUBTYPE_INTEL_IGD_OPREGION) as [info|];
    [|repeat split; reflexivity].
  unfold vfio_pci_igd_opregion_init.
  destruct (pread h (fun _ => 0) 0 (ri_size info) (ri_offset info)) as [buf r].
  destruct (negb (u64 (to_int r) =? ri_size info)); repeat split; reflexivity.
Qed.

(** What every run of the BAR4 quirk that reaches its end has done: after
    the steps before the override, which keep x-igd-gms and report no
    override error, the override block turns the GMCH value read from the
    device into [gmch]; the size for [gmch] is the last fw_cfg file; the
    log ends with the override block; and below generation 11 the 4-byte
    BDSM register is 0, fully writable and fully emulated. *)
Lemma bar4_enabled_inv (h : Host) (m m' : Machine) (nr : Z) :
  vfio_probe_igd_bar4_quirk h m nr = (m', Bar4Enabled) ->
  let gen := igd_gen (device_id (vdev m)) in
  exists m2 m3 gmch,
    igd_gms (vdev m2) = igd_gms (vdev m) /\
    invalid_params (log m2) = invalid_params (log m) /\
    vfio_igd_apply_gms m2 gen (u32 (gmch_config h)) = (m3, gmch) /\
    gen <> -1 /\
    fw_cfg m' = (fw_cfg m3 ++
                 [("etc/igd-bdsm-size", le_bytes 8 (igd_stolen_memory_size gen gmch))])%list /\
    log m' = log m3 /\
    (gen < 11 ->
     pci_get_long (config (vdev m')) IGD_BDSM = 0 /\
     pci_get_long (wmask (vdev m')) IGD_BDSM = 0xffffffff /\
     pci_get_long (emulated_config_bits (vdev m')) IGD_BDSM = 0xffffffff).
Proof.
  intros H gen. unfold vfio_probe_igd_bar4_quirk in H. cbv zeta in H.
  destruct (_ || _); [discriminate|].
  fold gen in H.
  destruct (gen =? -1) eqn:Hgen; [discriminate|]. apply Z.eqb_neq in Hgen.
  destruct (_ && _); [discriminate|].
  destruct (hotplugged (vdev m)); [discriminate|].
  set (m0 := add_io m _) in H.
  assert (F0 : igd_gms (vdev m0) = igd_gms (vdev m) /\
               device_id (vdev m0) = device_id (vdev m) /\
               invalid_params (log m0) = invalid_params (log m))
    by (repeat split; reflexivity).
  destruct (if negb (Z.testbit (u32 (gmch_config h)) 1) && negb (vga (vdev m0))
            then _ else _) as [m1 vga_failed] eqn:Hv.
  assert (F1 : igd_gms (vdev m1) = igd_gms (vdev m) /\
               device_id (vdev m1) = device_id (vdev m) /\
               invalid_params (log m1) = invalid_params (log m)).
  { destruct (negb (Z.testbit (u32 (gmch_config h)) 1) && negb (vga (vdev m0)));
      [|inversion Hv; subst; exact F0].
    unfold vfio_populate_vga in Hv.
    destruct (populate_vga_ok h); inversion Hv; subst; exact F0. }
  clear Hv. destruct vga_failed; [discriminate|].
  pose proof (setup_opregion_frame h m1) as F2.
  destruct (vfio_pci_igd_setup_opregion h m1) as [m2 [|e]]; [|discriminate].
  simpl in F2.
  pose proof (setup_lpc_bridge_frame h m2) as F3.
  destruct (vfio_pci_igd_setup_lpc_bridge h m2) as [m3 [|e]]; [|discriminate].
  simpl in F3.
  destruct (vfio_igd_apply_gms m3 gen (u32 (gmch_config h))) as [m4 gmch] eqn:Hap.
  exists m3, m4, gmch.
  destruct F1 as [G1 [D1 L1]]. destruct F2 as [G2 [D2 L2]]. destruct F3 as [V3 L3].
  split; [rewrite V3, G2, G1; reflexivity|].
  split; [rewrite L3, L2, L1; reflexivity|].
  split; [exact Hap|]. split; [exact Hgen|].
  pose proof (f_equal fst H) as Hm. cbn [fst] in Hm. subst m'. clear H.
  destruct (gen <? 11) eqn:H11.
  - split; [reflexivity|]. split; [reflexivity|].
    intros _. split; [|split]; reflexivity.
  - split; [reflexivity|]. split; [reflexivity|].
    intros Hlt. apply Z.ltb_ge in H11. lia.
Qed.

(** The override of a [w]-bit field at bit [s] as the code computes it in
    32 bits: the field of the result is [x] and its other bits are those
    of [g]. *)
Lemma gms_override_bits (g x s w : Z) :
  0 <= s -> 0 < w -> s + w <= 32 -> 0 <= x < 2 ^ w -> 0 <= g < 2 ^ 32 ->
  let used := Z.lor (Z.land g (u32 (Z.lnot (Z.shiftl (Z.ones w) s))))
                    (u32 (Z.shiftl x s)) in
  Z.land (Z.shiftr used s) (Z.ones w) = x /\
  Z.land used (Z.lnot (Z.shiftl (Z.ones w) s)) =
  Z.land g (Z.lnot (Z.shiftl (Z.ones w) s)).
Proof.
  intros Hs Hw Hsw Hx Hg used.
  assert (Xhi : forall n, w <= n -> Z.testbit x n = false).
  { intros n Hn. rewrite <- (Z.mod_small x (2 ^ w)) by lia.
    apply Z.mod_pow2_bits_high. lia. }
  assert (Ghi : forall n, 32 <= n -> Z.testbit g n = false).
  { intros n Hn. rewrite <- (Z.mod_small g (2 ^ 32)) by lia.
    apply Z.mod_pow2_bits_high. lia. }
  assert (Bit : forall n, 0 <= n -> Z.testbit used n =
            if (s <=? n) && (n <? s + w) then Z.testbit x (n - s) else Z.testbit g n).
  { intros n Hn. unfold used, u32. rewrite <- !Z.land_ones by lia.
    rewrite Z.lor_spec, !Z.land_spec, Z.lnot_spec, !Z.shiftl_spec by lia.
    rewrite !Z.testbit_ones by lia.
    destruct (Z.leb_spec s n), (Z.ltb_spec n (s + w)), (Z.ltb_spec n 32),
             (Z.leb_spec 0 (n - s)), (Z.ltb_spec (n - s) w), (Z.leb_spec 0 n);
      try (exfalso; lia);
      repeat first [ rewrite (Z.testbit_neg_r x (n - s)) by lia
                   | rewrite (Xhi (n - s)) by lia
                   | rewrite (Ghi n) by lia ];
      destruct (Z.testbit g n), (Z.testbit x (n - s)); reflexivity. }
  split; apply Z.bits_inj'; intros n Hn.
  - rewrite Z.land_spec, Z.shiftr_spec, Bit, Z.testbit_ones by lia.
    replace (n + s - s) with n by lia.
    destruct (Z.leb_spec s (n + s)), (Z.ltb_spec (n + s) (s + w)),
             (Z.leb_spec 0 n), (Z.ltb_spec n w); try (exfalso; lia);
      try rewrite (Xhi n) by lia;
      destruct (Z.testbit x n), (Z.testbit g (n + s)); reflexivity.
  - rewrite !Z.land_spec, Z.lnot_spec, Z.shiftl_spec, Bit, Z.testbit_ones by lia.
    destruct (Z.leb_spec s n), (Z.ltb_spec n (s + w)),
             (Z.leb_spec 0 (n - s)), (Z.ltb_spec (n - s) w); try (exfalso; lia);
      destruct (Z.testbit g n), (Z.testbit x (n - s)); reflexivity.
Qed.

(** The steps before the override block do not read x-igd-gms. *)
Lemma populate_vga_with_gms (h : Host) (m : Machine) (x : Z) :
  vfio_populate_vga h (with_igd_gms m x) =
  (with_igd_gms (fst (vfio_populate_vga h m)) x, snd (vfio_populate_vga h m)).
Proof. unfold vfio_populate_vga. destruct (populate_vga_ok h); reflexivity. Qed.

Lemma setup_opregion_with_gms (h : Host) (m : Machine) (x : Z) :
  vfio_pci_igd_setup_opregion h (with_igd_gms m x) =
  (with_igd_gms (fst (vfio_pci_igd_setup_opregion h m)) x,
   snd (vfio_pci_igd_setup_opregion h m)).
Proof.
  unfold vfio_pci_igd_setup_opregion. simpl hotplugged.
  destruct (hotplugged (vdev m)); [reflexivity|].
  unfold vfio_get_dev_region_info.
  destruct (dev_region_info h VFIO_REGION_SUBTYPE_INTEL_IGD_OPREGION) as [info|];
    [|reflexivity].
  unfold vfio_pci_igd_opregion_init.
  destruct (pread h (fun _ => 0) 0 (ri_size info) (ri_offset info)) as [buf r].
  destruct (negb (u64 (to_int r) =? ri_size info)); reflexivity.
Qed.

Lemma igd_copy_with_vdev (h : Host) (info : vfio_region_info) (l : list (Z * Z))
    (v : VFIOPCIDevice) :
  forall m cfg,
  vfio_pci_igd_copy h (set_vdev m v) cfg info l =
  let '(m', c, r) := vfio_pci_igd_copy h m cfg info l in (set_vdev m' v, c, r).
Proof.
  induction l as [|[off len] l IH]; intros m cfg; cbn [vfio_pci_igd_copy].
  - reflexivity.
  - destruct (pread h cfg off len (ri_offset info + off)) as [cfg' r].
    destruct (negb (to_int r =? len)); [reflexivity|].
    apply (IH (add_io m (IoPread len (ri_offset info + off))) cfg').
Qed.

Lemma set_bus_dev_with_vdev (m : Machine) (v : VFIOPCIDevice) (df : Z) (d : PCIDevice) :
  set_bus_dev (set_vdev m v) df d = set_vdev (set_bus_dev m df d) v.
Proof. reflexivity. Qed.

Lemma lpc_init_with_vdev (h : Host) (m : Machine) (v : VFIOPCIDevice)
    (info : vfio_region_info) :
  vfio_pci_igd_lpc_init h (set_vdev m v) info =
  let '(m', r) := vfio_pci_igd_lpc_init h m info in (set_vdev m' v, r).
Proof.
  unfold vfio_pci_igd_lpc_init. simpl root_bus.
  destruct (root_bus m (PCI_DEVFN 0x1f 0)) as [d|];
    rewrite ?set_bus_dev_with_vdev, igd_copy_with_vdev;
    match goal with |- context [vfio_pci_igd_copy h ?m0 ?c info ?l] =>
      destruct (vfio_pci_igd_copy h m0 c info l) as [[m2 c2] r2] end;
    reflexivity.
Qed.

Lemma host_init_with_vdev (h : Host) (m : Machine) (v : VFIOPCIDevice)
    (info : vfio_region_info) :
  vfio_pci_igd_host_init h (set_vdev m v) info =
  let '(m', r) := vfio_pci_igd_host_init h m info in (set_vdev m' v, r).
Proof.
  unfold vfio_pci_igd_host_init. simpl root_bus.
  destruct (root_bus m (PCI_DEVFN 0 0)) as [d|]; [|reflexivity].
  rewrite igd_copy_with_vdev.
  destruct (vfio_pci_igd_copy h m (pd_config d) info igd_host_bridge_infos)
    as [[m2 c2] r2].
  reflexivity.
Qed.

Lemma setup_lpc_bridge_with_vdev (h : Host) (m : Machine) (v : VFIOPCIDevice) :
  hotplugged v = hotplugged (vdev m) ->
  vfio_pci_igd_setup_lpc_bridge h (set_vdev m v) =
  (set_vdev (fst (vfio_pci_igd_setup_lpc_bridge h m)) v,
   snd (vfio_pci_igd_setup_lpc_bridge h m)).
Proof.
  intros Hhot. unfold vfio_pci_igd_setup_lpc_bridge. simpl vdev. rewrite Hhot.
  destruct (hotplugged (vdev m)); [reflexivity|].
  simpl root_bus.
  destruct (match root_bus m (PCI_DEVFN 0x1f 0) with
            | Some _ => _ | None => false end); [reflexivity|].
  unfold vfio_get_dev_region_info.
  destruct (dev_region_info h VFIO_REGION_SUBTYPE_INTEL_IGD_LPC_CFG) as [lpc|];
    [|reflexivity].
  destruct (dev_region_info h VFIO_REGION_SUBTYPE_INTEL_IGD_HOST_CFG) as [host|];
    [|reflexivity].
  set (m1 := add_io (add_io m _) _).
  change (add_io (add_io (set_vdev m v) _) _) with (set_vdev m1 v).
  rewrite lpc_init_with_vdev.
  destruct (vfio_pci_igd_lpc_init h m1 lpc) as [m2 r2].
  destruct (negb (r2 =? 0)); [reflexivity|].
  rewrite host_init_with_vdev.
  destruct (vfio_pci_igd_host_init h m2 host) as [m3 r3].
  destruct (negb (r3 =? 0)); reflexivity.
Qed.

Lemma add_io_with_gms (m : Machine) (x : Z) (e : io_event) :
  add_io (with_igd_gms m x) e = with_igd_gms (add_io m e) x.
Proof. reflexivity. Qed.

Lemma add_log_with_gms (m : Machine) (x : Z) (e : msg) :
  add_log (with_igd_gms m x) e = with_igd_gms (add_log m e) x.
Proof. reflexivity. Qed.

(** Where the BAR4 quirk returns does not depend on x-igd-gms. *)
Lemma bar4_exit_with_gms (h : Host) (m : Machine) (nr x : Z) :
  snd (vfio_probe_igd_bar4_quirk h (with_igd_gms m x) nr) =
  snd (vfio_probe_igd_bar4_quirk h m nr).
Proof.
  unfold vfio_probe_igd_bar4_quirk. cbv zeta.
  change (vdev (with_igd_gms m x)) with (set_igd_gms (vdev m) x).
  cbn [vendor_id is_vga devfn device_id romfile hotplugged set_igd_gms vfio_pci_is
       at_igd_address].
  destruct (_ || _); [reflexivity|].
  destruct (igd_gen (device_id (vdev m)) =? -1); [reflexivity|].
  destruct (_ && negb (romfile (vdev m))); [reflexivity|].
  destruct (hotplugged (vdev m)); [reflexivity|].
  rewrite add_io_with_gms.
  set (m0 := add_io m _).
  change (vga (vdev (with_igd_gms m0 x))) with (vga (vdev m0)).
  destruct (negb (Z.testbit (u32 (gmch_config h)) 1) && negb (vga (vdev m0))).
  - rewrite populate_vga_with_gms.
    destruct (vfio_populate_vga h m0) as [m1 ok]. cbn [fst snd].
    destruct ok; [|reflexivity]. cbn [negb].
    rewrite setup_opregion_with_gms.
    destruct (vfio_pci_igd_setup_opregion h m1) as [m2 [|e]]; [|reflexivity].
    cbn [fst snd]. unfold with_igd_gms at 1.
    rewrite setup_lpc_bridge_with_vdev by reflexivity.
    destruct (vfio_pci_igd_setup_lpc_bridge h m2) as [m3 [|e]]; [|reflexivity].
    cbn [fst snd].
    destruct (vfio_igd_apply_gms (set_vdev m3 _) _ _).
    destruct (vfio_igd_apply_gms m3 _ _).
    reflexivity.
  - rewrite setup_opregion_with_gms.
    destruct (vfio_pci_igd_setup_opregion h m0) as [m2 [|e]]; [|reflexivity].
    cbn [fst snd]. unfold with_igd_gms at 1.
    rewrite setup_lpc_bridge_with_vdev by reflexivity.
    destruct (vfio_pci_igd_setup_lpc_bridge h m2) as [m3 [|e]]; [|reflexivity].
    cbn [fst snd].
    destruct (vfio_igd_apply_gms (set_vdev m3 _) _ _).
    destruct (vfio_igd_apply_gms m3 _ _).
    reflexivity.
Qed.

(** The override block of the BAR4 quirk: with x-igd-gms = 0 nothing
    happens; an accepted value becomes the stolen-memory field and the
    other bits stay; a rejected value is reported and GMCH stays. *)
Lemma apply_gms_spec (m : Machine) (gen gmch : Z) :
  0 <= gmch < 2 ^ 32 -> 0 <= igd_gms (vdev m) < 2 ^ 32 ->
  let gms := igd_gms (vdev m) in
  let accepted := if gen <? 8 then gms <=? 0x10 else gms <=? 0x40 in
  let (m', used) := vfio_igd_apply_gms m gen gmch in
  (gms = 0 -> m' = m /\ used = gmch) /\
  (gms <> 0 -> accepted = true ->
   m' = m /\ spec_gms_field gen used = gms /\
   Z.land used (Z.lnot (gms_field_mask gen)) = Z.land gmch (Z.lnot (gms_field_mask gen))) /\
  (gms <> 0 -> accepted = false ->
   m' = add_log m (MsgInvalidParameter "x-igd-gms"
                     (if gen <? 8 then "0~0x10" else "0~0x40")) /\
   used = gmch).
Proof.
  intros Hg Hx. cbv zeta. unfold vfio_igd_apply_gms.
  destruct (Z.eqb_spec (igd_gms (vdev m)) 0) as [E|E]; cbn [negb].
  - split; [intros _; split; reflexivity|]. split; intros; contradiction.
  - unfold gms_field_mask.
    destruct (gen <? 8) eqn:H8.
    + destruct (Z.leb_spec (igd_gms (vdev m)) 0x10) as [Hle|Hle];
        cbv beta iota zeta.
      * rewrite <- gms_field_code, H8.
        unfold IGD_GMCH_GEN6_GMS_MASK, IGD_GMCH_GEN6_GMS_SHIFT.
        change 0x1f with (Z.ones 5).
        destruct (gms_override_bits gmch (igd_gms (vdev m)) 3 5
                    ltac:(lia) ltac:(lia) ltac:(lia) ltac:(lia) Hg) as [B1 B2].
        split; [intros; contradiction|].
        split; [|intros _ Hf; discriminate].
        intros _ _. split; [reflexivity|]. split; [exact B1|exact B2].
      * split; [intros; contradiction|].
        split; [intros _ Ht; discriminate|]. intros _ _. split; reflexivity.
    + destruct (Z.leb_spec (igd_gms (vdev m)) 0x40) as [Hle|Hle];
        cbv beta iota zeta.
      * rewrite <- gms_field_code, H8.
        unfold IGD_GMCH_GEN8_GMS_MASK, IGD_GMCH_GEN8_GMS_SHIFT.
        change 0xff with (Z.ones 8).
        destruct (gms_override_bits gmch (igd_gms (vdev m)) 8 8
                    ltac:(lia) ltac:(lia) ltac:(lia) ltac:(lia) Hg) as [B1 B2].
        split; [intros; contradiction|].
        split; [|intros _ Hf; discriminate].
        intros _ _. split; [reflexivity|]. split; [exact B1|exact B2].
      * split; [intros; contradiction|].
        split; [intros _ Ht; discriminate|]. intros _ _. split; reflexivity.
Qed.

Lemma u32_range (x : Z) : 0 <= u32 x < 2 ^ 32.
Proof. unfold u32. apply Z.mod_pos_bound. lia. Qed.

(* ------------------------------------------------------------------------- *)
(** * BAR4 quirk *)

(** C3: for device ID 0x1912 (generation 9), a GMCH register whose 8-bit
    field at bit 8 is 0x10 and no x-igd-gms override, a run of the BAR4
    quirk that completes computes 0x10 * 32 MiB = 512 MiB, publishes it
    as the last fw_cfg file "etc/igd-bdsm-size" holding the little-endian
    64-bit value 0x20000000, and leaves the 4-byte BDSM register at 0x5C
    equal to 0 with write mask and emulated mask 0xffffffff. *)
Theorem bar4_skylake_end_to_end (h : Host) (m m' : Machine) (nr : Z) :
  device_id (vdev m) = 0x1912 ->
  igd_gms (vdev m) = 0 ->
  0 <= gmch_config h < 2 ^ 32 ->
  Z.land (Z.shiftr (gmch_config h) 8) 0xff = 0x10 ->
  vfio_probe_igd_bar4_quirk h m nr = (m', Bar4Enabled) ->
  igd_gen (device_id (vdev m)) = 9 /\
  igd_stolen_memory_size 9 (gmch_config h) = 512 * MiB /\
  last (fw_cfg m') ("", []) =
    ("etc/igd-bdsm-size", [0x00; 0x00; 0x00; 0x20; 0x00; 0x00; 0x00; 0x00]) /\
  pci_get_long (config (vdev m')) IGD_BDSM = 0 /\
  pci_get_long (wmask (vdev m')) IGD_BDSM = 0xffffffff /\
  pci_get_long (emulated_config_bits (vdev m')) IGD_BDSM = 0xffffffff.
Proof.
  intros Hid Hgms Hrange Hfield H.
  assert (Hgen : igd_gen (device_id (vdev m)) = 9) by (rewrite Hid; reflexivity).
  assert (Hsize : igd_stolen_memory_size 9 (gmch_config h) = 512 * MiB).
  { unfold igd_stolen_memory_size, IGD_GMCH_GEN8_GMS_SHIFT, IGD_GMCH_GEN8_GMS_MASK.
    simpl Z.ltb. cbn iota. rewrite Hfield. reflexivity. }
  destruct (bar4_enabled_inv h m m' nr H) as (m2 & m3 & gmch & G2 & _ & Hap & _ & Hfw & _ & Hbdsm).
  rewrite Hgen in Hap, Hfw, Hbdsm.
  assert (Hu : u32 (gmch_config h) = gmch_config h) by (apply Z.mod_small; lia).
  rewrite Hu in Hap.
  pose proof (apply_gms_spec m2 9 (gmch_config h) Hrange
                ltac:(rewrite G2, Hgms; lia)) as Hs.
  cbv zeta in Hs. rewrite Hap in Hs.
  destruct Hs as [[_ ->] _]; [rewrite G2; exact Hgms|].
  split; [exact Hgen|]. split; [exact Hsize|].
  split; [rewrite Hfw, last_last, Hsize; reflexivity|].
  apply Hbdsm. lia.
Qed.

Lemma bar4_skylake_end_to_end_witness :
  let h := sample_host 0x1000 0 in
  let m := sample_machine (sample_vdev 0x1912 0 false) None in
  (device_id (vdev m) = 0x1912 /\ igd_gms (vdev m) = 0 /\
   (0 <= gmch_config h < 2 ^ 32) /\
   Z.land (Z.shiftr (gmch_config h) 8) 0xff = 0x10 /\
   vfio_probe_igd_bar4_quirk h m 4 = (fst (vfio_probe_igd_bar4_quirk h m 4), Bar4Enabled)) /\
  last (fw_cfg (fst (vfio_probe_igd_bar4_quirk h m 4))) ("", []) =
    ("etc/igd-bdsm-size", [0x00; 0x00; 0x00; 0x20; 0x00; 0x00; 0x00; 0x00]).
Proof.
  cbv zeta.
  assert (Hrun : vfio_probe_igd_bar4_quirk (sample_host 0x1000 0)
      (sample_machine (sample_vdev 0x1912 0 false) None) 4 =
    (fst (vfio_probe_igd_bar4_quirk (sample_host 0x1000 0)
      (sample_machine (sample_vdev 0x1912 0 false) None) 4), Bar4Enabled)).
  { rewrite (surjective_pairing (vfio_probe_igd_bar4_quirk _ _ 4)) at 1.
    f_equal; vm_compute; reflexivity. }
  split.
  - split; [reflexivity|]. split; [reflexivity|]. split; [simpl; lia|].
    split; [reflexivity|]. exact Hrun.
  - exact (proj1 (proj2 (proj2 (bar4_skylake_end_to_end
      (sample_host 0x1000 0) (sample_machine (sample_vdev 0x1912 0 false) None)
      _ 4 eq_refl eq_refl ltac:(simpl; lia) eq_refl Hrun)))).
Defined.

(** What a completed BAR4 run publishes, by the value of x-igd-gms. *)
Lemma bar4_enabled_override (h : Host) (m m' : Machine) (nr : Z) :
  0 <= igd_gms (vdev m) < 2 ^ 32 ->
  vfio_probe_igd_bar4_quirk h m nr = (m', Bar4Enabled) ->
  let gen := igd_gen (device_id (vdev m)) in
  let g := u32 (gmch_config h) in
  let gms := igd_gms (vdev m) in
  let accepted := if gen <? 8 then gms <=? 0x10 else gms <=? 0x40 in
  exists used,
    last (fw_cfg m') ("", []) =
      ("etc/igd-bdsm-size", le_bytes 8 (igd_stolen_memory_size gen used)) /\
    (gms = 0 -> used = g /\ invalid_params (log m') = invalid_params (log m)) /\
    (gms <> 0 -> accepted = true ->
     spec_gms_field gen used = gms /\
     Z.land used (Z.lnot (gms_field_mask gen)) = Z.land g (Z.lnot (gms_field_mask gen)) /\
     invalid_params (log m') = invalid_params (log m)) /\
    (gms <> 0 -> accepted = false ->
     used = g /\
     invalid_params (log m') =
       (invalid_params (log m) ++
        [MsgInvalidParameter "x-igd-gms" (if gen <? 8 then "0~0x10" else "0~0x40")])%list).
Proof.
  intros Hx H. cbv zeta.
  destruct (bar4_enabled_inv h m m' nr H)
    as (m2 & m3 & used & G2 & L2 & Hap & _ & Hfw & Hlog & _).
  cbv zeta in Hap, Hfw.
  pose proof (apply_gms_spec m2 (igd_gen (device_id (vdev m))) (u32 (gmch_config h))
                (u32_range _) ltac:(rewrite G2; exact Hx)) as Hs.
  cbv zeta in Hs. rewrite Hap, G2 in Hs. destruct Hs as (S0 & S1 & S2).
  exists used. split; [rewrite Hfw, last_last; reflexivity|].
  rewrite Hlog, <- L2. split; [|split].
  - intros E. destruct (S0 E) as [-> ->]. split; reflexivity.
  - intros E A. destruct (S1 E A) as (-> & F & O). split; [exact F|].
    split; [exact O|reflexivity].
  - intros E A. destruct (S2 E A) as (-> & ->). split; [reflexivity|].
    cbn [log add_log set_log]. apply invalid_params_app.
Qed.

(** C4: for a nonzero x-igd-gms value, the override is accepted iff it is at
    most 0x10 (generation < 8) or at most 0x40 (generation >= 8).  An
    accepted value replaces the stolen-memory field of the GMCH value whose
    size is published, the other bits staying those of the register; a
    rejected value adds one invalid-parameter report, the register value is
    used unmodified, and the run completes as it does without an override. *)
Theorem bar4_gms_override (h : Host) (m m' : Machine) (nr : Z) :
  0 < igd_gms (vdev m) < 2 ^ 32 ->
  vfio_probe_igd_bar4_quirk h m nr = (m', Bar4Enabled) ->
  let gen := igd_gen (device_id (vdev m)) in
  let g := u32 (gmch_config h) in
  let gms := igd_gms (vdev m) in
  let entry x := ("etc/igd-bdsm-size", le_bytes 8 (igd_stolen_memory_size gen x)) in
  ((if gen <? 8 then gms <=? 0x10 else gms <=? 0x40) = true ->
   exists used,
     spec_gms_field gen used = gms /\
     Z.land used (Z.lnot (gms_field_mask gen)) = Z.land g (Z.lnot (gms_field_mask gen)) /\
     last (fw_cfg m') ("", []) = entry used /\
     invalid_params (log m') = invalid_params (log m)) /\
  ((if gen <? 8 then gms <=? 0x10 else gms <=? 0x40) = false ->
   last (fw_cfg m') ("", []) = entry g /\
   invalid_params (log m') =
     (invalid_params (log m) ++
      [MsgInvalidParameter "x-igd-gms" (if gen <? 8 then "0~0x10" else "0~0x40")])%list) /\
  (forall x, snd (vfio_probe_igd_bar4_quirk h (with_igd_gms m x) nr) = Bar4Enabled).
Proof.
  intros Hx H. cbv zeta.
  destruct (bar4_enabled_override h m m' nr ltac:(lia) H)
    as (used & Hfw & _ & S1 & S2).
  assert (E : igd_gms (vdev m) <> 0) by lia.
  split; [|split].
  - intros A. destruct (S1 E A) as (F & O & L).
    exists used. split; [exact F|]. split; [exact O|]. split; [exact Hfw|exact L].
  - intros A. destruct (S2 E A) as (-> & L). split; [exact Hfw|exact L].
  - intros x. rewrite bar4_exit_with_gms, H. reflexivity.
Qed.

(** C10: x-igd-gms = 0 is the same as no override: the register value is used
    unmodified and nothing is reported; and whatever x-igd-gms is, a register
    whose stolen-memory field is nonzero is never published with a zero field. *)
Theorem bar4_zero_override_ignored (h : Host) (m m' : Machine) (nr : Z) :
  0 <= igd_gms (vdev m) < 2 ^ 32 ->
  vfio_probe_igd_bar4_quirk h m nr = (m', Bar4Enabled) ->
  let gen := igd_gen (device_id (vdev m)) in
  let g := u32 (gmch_config h) in
  let entry x := ("etc/igd-bdsm-size", le_bytes 8 (igd_stolen_memory_size gen x)) in
  (igd_gms (vdev m) = 0 ->
   last (fw_cfg m') ("", []) = entry g /\
   invalid_params (log m') = invalid_params (log m)) /\
  (spec_gms_field gen g <> 0 ->
   exists used, last (fw_cfg m') ("", []) = entry used /\ spec_gms_field gen used <> 0).
Proof.
  intros Hx H. cbv zeta.
  destruct (bar4_enabled_override h m m' nr Hx H) as (used & Hfw & S0 & S1 & S2).
  split.
  - intros E. destruct (S0 E) as [-> L]. split; [exact Hfw|exact L].
  - intros F. exists used. split; [exact Hfw|].
    destruct (Z.eq_dec (igd_gms (vdev m)) 0) as [E|E].
    + destruct (S0 E) as [-> _]. exact F.
    + destruct (if igd_gen (device_id (vdev m)) <? 8
                then igd_gms (vdev m) <=? 0x10 else igd_gms (vdev m) <=? 0x40) eqn:A.
      * destruct (S1 E eq_refl) as (-> & _). exact E.
      * destruct (S2 E eq_refl) as (-> & _). exact F.
Qed.

Lemma bar4_gms_override_witness :
  let h := sample_host 0x1000 0 in
  let m := sample_machine (sample_vdev 0x0412 0x11 false) None in
  (0 < igd_gms (vdev m) < 2 ^ 32 /\
   vfio_probe_igd_bar4_quirk h m 4 = (fst (vfio_probe_igd_bar4_quirk h m 4), Bar4Enabled)) /\
  invalid_params (log (fst (vfio_probe_igd_bar4_quirk h m 4))) =
    [MsgInvalidParameter "x-igd-gms" "0~0x10"].
Proof.
  cbv zeta.
  assert (Hrun : vfio_probe_igd_bar4_quirk (sample_host 0x1000 0)
      (sample_machine (sample_vdev 0x0412 0x11 false) None) 4 =
    (fst (vfio_probe_igd_bar4_quirk (sample_host 0x1000 0)
      (sample_machine (sample_vdev 0x0412 0x11 false) None) 4), Bar4Enabled)).
  { rewrite (surjective_pairing (vfio_probe_igd_bar4_quirk _ _ 4)) at 1.
    f_equal; vm_compute; reflexivity. }
  split; [split; [simpl; lia|exact Hrun]|].
  exact (proj2 (proj1 (proj2 (bar4_gms_override
      (sample_host 0x1000 0) (sample_machine (sample_vdev 0x0412 0x11 false) None)
      _ 4 ltac:(simpl; lia) Hrun)) eq_refl)).
Defined.

Lemma bar4_zero_override_ignored_witness :
  let h := sample_host 0x1000 0 in
  let m := sample_machine (sample_vdev 0x1912 0 false) None in
  (0 <= igd_gms (vdev m) < 2 ^ 32 /\
   vfio_probe_igd_bar4_quirk h m 4 = (fst (vfio_probe_igd_bar4_quirk h m 4), Bar4Enabled)) /\
  last (fw_cfg (fst (vfio_probe_igd_bar4_quirk h m 4))) ("", []) =
    ("etc/igd-bdsm-size",
     le_bytes 8 (igd_stolen_memory_size 9 (u32 (gmch_config h)))).
Proof.
  cbv zeta.
  assert (Hrun : vfio_probe_igd_bar4_quirk (sample_host 0x1000 0)
      (sample_machine (sample_vdev 0x1912 0 false) None) 4 =
    (fst (vfio_probe_igd_bar4_quirk (sample_host 0x1000 0)
      (sample_machine (sample_vdev 0x1912 0 false) None) 4), Bar4Enabled)).
  { rewrite (surjective_pairing (vfio_probe_igd_bar4_quirk _ _ 4)) at 1.
    f_equal; vm_compute; reflexivity. }
  split; [split; [simpl; lia|exact Hrun]|].
  exact (proj1 (proj1 (bar4_zero_override_ignored
      (sample_host 0x1000 0) (sample_machine (sample_vdev 0x1912 0 false) None)
      _ 4 ltac:(simpl; lia) Hrun) eq_refl)).
Defined.

(* ------------------------------------------------------------------------- *)
(** * Further properties of the code *)

Lemma Z_mod_mul_r (a b c : Z) :
  0 < b -> 0 < c -> a mod (b * c) = a mod b + b * ((a / b) mod c).
Proof.
  intros Hb Hc. rewrite !Z.mod_eq by lia. rewrite <- Z.div_div by lia. ring.
Qed.


Lemma load_le_bytes (b : bytes) (n : nat) :
  forall off v,
  (forall i, off <= i < off + Z.of_nat n -> b i = Z.land (Z.shiftr v (8 * (i - off))) 0xff) ->
  load_le b off n = v mod 2 ^ (8 * Z.of_nat n).
Proof.
  induction n as [|n IH]; intros off v Hb; cbn [load_le].
  - rewrite Z.mul_0_r, Z.pow_0_r, Z.mod_1_r. reflexivity.
  - rewrite (IH (off + 1) (Z.shiftr v 8)).
    + rewrite (Hb off) by lia. rewrite Z.sub_diag, Z.mul_0_r, Z.shiftr_0_r.
      change 0xff with (Z.ones 8). rewrite Z.land_ones by lia.
      rewrite Z.shiftr_div_pow2 by lia.
      replace (8 * Z.of_nat (S n)) with (8 + 8 * Z.of_nat n) by lia.
      rewrite Z.pow_add_r by lia.
      rewrite Z_mod_mul_r by lia. reflexivity.
    + intros i Hi. rewrite (Hb i) by lia. rewrite Z.shiftr_shiftr by lia.
      f_equal. f_equal. lia.
Qed.

Lemma le_value_le_bytes (n : nat) : forall v, le_value (le_bytes n v) = v mod 2 ^ (8 * Z.of_nat n).
Proof.
  induction n as [|n IH]; intros v; cbn [le_bytes le_value].
  - rewrite Z.mul_0_r, Z.pow_0_r, Z.mod_1_r. reflexivity.
  - rewrite IH. change 0xff with (Z.ones 8). rewrite Z.land_ones by lia.
    rewrite Z.shiftr_div_pow2 by lia.
    replace (8 * Z.of_nat (S n)) with (8 + 8 * Z.of_nat n) by lia.
    rewrite Z.pow_add_r by lia. rewrite Z_mod_mul_r by lia. reflexivity.
Qed.

Lemma store_le_outside (a : bytes) (off n v i : Z) :
  ~ (off <= i < off + n) -> store_le a off n v i = a i.
Proof.
  intros Hi. unfold store_le.
  destruct (Z.leb_spec off i), (Z.ltb_spec i (off + n)); simpl; try reflexivity. lia.
Qed.

Lemma load_store_le (a : bytes) (off v : Z) (n : nat) :
  load_le (store_le a off (Z.of_nat n) v) off n = v mod 2 ^ (8 * Z.of_nat n).
Proof.
  apply load_le_bytes. intros i Hi. unfold store_le.
  destruct (Z.leb_spec off i), (Z.ltb_spec i (off + Z.of_nat n)); simpl; try reflexivity; lia.
Qed.

Lemma pci_get_set_long (a : bytes) (off v : Z) :
  pci_get_long (pci_set_long a off v) off = u32 v.
Proof.
  unfold pci_get_long, pci_set_long. change 4 with (Z.of_nat 4).
  rewrite load_store_le. unfold u32. apply Z.mod_mod. lia.
Qed.

Lemma pci_get_set_quad (a : bytes) (off v : Z) :
  pci_get_quad (pci_set_quad a off v) off = u64 v.
Proof.
  unfold pci_get_quad, pci_set_quad. change 8 with (Z.of_nat 8).
  rewrite load_store_le. unfold u64. apply Z.mod_mod. lia.
Qed.

(** The steps of a completed run of the BAR4 quirk. *)
Lemma bar4_enabled_steps (h : Host) (m m' : Machine) (nr : Z) :
  vfio_probe_igd_bar4_quirk h m nr = (m', Bar4Enabled) ->
  let v := vdev m in
  let gen := igd_gen (device_id v) in
  let m0 := add_io m (IoRegionInfo VFIO_PCI_ROM_REGION_INDEX) in
  vfio_pci_is v PCI_VENDOR_ID_INTEL = true /\ is_vga v = true /\ nr = 4 /\
  at_igd_address v = true /\ gen <> -1 /\ hotplugged v = false /\
  exists m1 m2 m3 m4 gmch,
    (if negb (Z.testbit (u32 (gmch_config h)) 1) && negb (vga (vdev m0))
     then let '(m, ok) := vfio_populate_vga h m0 in (m, negb ok)
     else (m0, false)) = (m1, false) /\
    vfio_pci_igd_setup_opregion h m1 = (m2, Success) /\
    vfio_pci_igd_setup_lpc_bridge h m2 = (m3, Success) /\
    vfio_igd_apply_gms m3 gen (u32 (gmch_config h)) = (m4, gmch) /\
    m' = update_vdev
           (update_vdev
              (fw_cfg_add_file m4 "etc/igd-bdsm-size"
                 (le_bytes 8 (igd_stolen_memory_size gen gmch)))
              (fun v => set_reg_long v IGD_GMCH gmch 0 (Z.lnot 0)))
           (fun v => if gen <? 11
                     then set_reg_long v IGD_BDSM 0 (Z.lnot 0) (Z.lnot 0)
                     else set_reg_quad v IGD_BDSM_GEN11 0 (Z.lnot 0) (Z.lnot 0)).
Proof.
  intros H v gen m0. unfold vfio_probe_igd_bar4_quirk in H. cbv zeta in H.
  fold v in H.
  destruct (vfio_pci_is v PCI_VENDOR_ID_INTEL) eqn:E1; [|discriminate].
  destruct (is_vga v) eqn:E2; [|discriminate].
  destruct (Z.eqb_spec nr 4) as [E3|E3]; [|discriminate].
  destruct (at_igd_address v) eqn:E4; [|discriminate].
  cbn [negb orb] in H. fold gen in H.
  destruct (gen =? -1) eqn:Hgen; [discriminate|]. apply Z.eqb_neq in Hgen.
  destruct (_ && _); [discriminate|].
  destruct (hotplugged v) eqn:E5; [discriminate|].
  fold m0 in H.
  do 6 (split; [first [assumption | reflexivity]|]).
  destruct (if negb (Z.testbit (u32 (gmch_config h)) 1) && negb (vga (vdev m0))
            then _ else _) as [m1 vga_failed] eqn:Hv.
  destruct vga_failed; [discriminate|].
  destruct (vfio_pci_igd_setup_opregion h m1) as [m2 [|e]] eqn:Ho; [|discriminate].
  destruct (vfio_pci_igd_setup_lpc_bridge h m2) as [m3 [|e]] eqn:Hl; [|discriminate].
  destruct (vfio_igd_apply_gms m3 gen (u32 (gmch_config h))) as [m4 gmch] eqn:Hap.
  exists m1, m2, m3, m4, gmch.
  split; [first [exact Hv | reflexivity]|].
  split; [first [exact Ho | reflexivity]|].
  split; [first [exact Hl | reflexivity]|].
  split; [first [exact Hap | reflexivity]|].
  pose proof (f_equal fst H) as Hm. cbn [fst] in Hm. subst m'. clear H.
  destruct (gen <? 11); reflexivity.
Qed.

Lemma igd_copy_keeps (h : Host) (info : vfio_region_info) (l : list (Z * Z)) :
  forall m cfg,
  let m' := fst (fst (vfio_pci_igd_copy h m cfg info l)) in
  vdev m' = vdev m /\ root_bus m' = root_bus m /\ fw_cfg m' = fw_cfg m.
Proof.
  induction l as [|[off len] l IH]; intros m cfg; cbn [vfio_pci_igd_copy].
  - repeat split; reflexivity.
  - destruct (pread h cfg off len (ri_offset info + off)) as [cfg' r].
    destruct (negb (to_int r =? len)).
    + repeat split; reflexivity.
    + apply (IH (add_io m (IoPread len (ri_offset info + off))) cfg').
Qed.

Lemma lpc_init_keeps (h : Host) (m : Machine) (info : vfio_region_info) :
  let m' := fst (vfio_pci_igd_lpc_init h m info) in
  vdev m' = vdev m /\ fw_cfg m' = fw_cfg m /\
  forall df, df <> PCI_DEVFN 0x1f 0 -> root_bus m' df = root_bus m df.
Proof.
  unfold vfio_pci_igd_lpc_init.
  destruct (match root_bus m (PCI_DEVFN 0x1f 0) with
            | Some d => (m, d) | None => _ end) as [m1 d] eqn:E1.
  assert (K1 : vdev m1 = vdev m /\ fw_cfg m1 = fw_cfg m /\
               forall df, df <> PCI_DEVFN 0x1f 0 -> root_bus m1 df = root_bus m df).
  { destruct (root_bus m (PCI_DEVFN 0x1f 0)); inversion E1; subst;
      (split; [reflexivity|]); (split; [reflexivity|]); intros df Hdf; [reflexivity|].
    simpl. apply Z.eqb_neq in Hdf. rewrite Hdf. reflexivity. }
  pose proof (igd_copy_keeps h info igd_lpc_bridge_infos m1 (pd_config d)) as K2.
  destruct (vfio_pci_igd_copy h m1 (pd_config d) info igd_lpc_bridge_infos)
    as [[m2 cfg] ret]. simpl in K2 |- *.
  destruct K1 as (V1 & F1 & R1). destruct K2 as (V2 & R2 & F2).
  split; [congruence|]. split; [congruence|].
  intros df Hdf. apply Z.eqb_neq in Hdf as Hdf'. rewrite Hdf', R2. apply R1, Hdf.
Qed.

Lemma host_init_keeps (h : Host) (m : Machine) (info : vfio_region_info) :
  let m' := fst (vfio_pci_igd_host_init h m info) in
  vdev m' = vdev m /\ fw_cfg m' = fw_cfg m /\
  forall df, df <> PCI_DEVFN 0 0 -> root_bus m' df = root_bus m df.
Proof.
  unfold vfio_pci_igd_host_init.
  destruct (root_bus m (PCI_DEVFN 0 0)) as [hb|].
  - pose proof (igd_copy_keeps h info igd_host_bridge_infos m (pd_config hb)) as K.
    destruct (vfio_pci_igd_copy h m (pd_config hb) info igd_host_bridge_infos)
      as [[m2 cfg] ret]. simpl in K |- *. destruct K as (V & R & F).
    split; [exact V|]. split; [exact F|].
    intros df Hdf. apply Z.eqb_neq in Hdf. rewrite Hdf, R. reflexivity.
  - simpl. split; [reflexivity|]. split; [reflexivity|]. reflexivity.
Qed.

(** Bridge setup never touches the assigned device nor fw_cfg, and on the
    root bus only the slots 00.0 and 1f.0. *)
Lemma setup_lpc_bridge_keeps (h : Host) (m : Machine) :
  let m' := fst (vfio_pci_igd_setup_lpc_bridge h m) in
  vdev m' = vdev m /\ fw_cfg m' = fw_cfg m /\
  forall df, df <> PCI_DEVFN 0 0 -> df <> PCI_DEVFN 0x1f 0 ->
             root_bus m' df = root_bus m df.
Proof.
  unfold vfio_pci_igd_setup_lpc_bridge.
  destruct (hotplugged (vdev m)); [repeat split; reflexivity|].
  destruct (match root_bus m (PCI_DEVFN 0x1f 0) with
            | Some _ => _ | None => false end); [repeat split; reflexivity|].
  cbn [vfio_get_dev_region_info].
  destruct (dev_region_info h VFIO_REGION_SUBTYPE_INTEL_IGD_LPC_CFG) as [lpc|];
    [|repeat split; reflexivity].
  destruct (dev_region_info h VFIO_REGION_SUBTYPE_INTEL_IGD_HOST_CFG) as [host|];
    [|repeat split; reflexivity].
  set (m1 := add_io (add_io m _) _).
  pose proof (lpc_init_keeps h m1 lpc) as K1.
  destruct (vfio_pci_igd_lpc_init h m1 lpc) as [m2 ret2]. simpl in K1.
  destruct K1 as (V2 & F2 & R2).
  pose proof (host_init_keeps h m2 host) as K3.
  destruct (vfio_pci_igd_host_init h m2 host) as [m3 ret3]. simpl in K3.
  destruct K3 as (V3 & F3 & R3).
  destruct (negb (ret2 =? 0)).
  - simpl. split; [exact V2|]. split; [exact F2|]. intros df _ H2. apply R2, H2.
  - destruct (negb (ret3 =? 0)); simpl;
      (split; [congruence|]); (split; [congruence|]);
      intros df H1 H2; rewrite R3 by exact H1; apply R2, H2.
Qed.

Lemma to_int_small (x : Z) : 0 <= x < 2 ^ 31 -> to_int x = x.
Proof.
  intros Hx. unfold to_int. rewrite Z.mod_small by lia.
  destruct (Z.ltb_spec x (2 ^ 31)); lia.
Qed.


Lemma igd_copy_full (h : Host) (info : vfio_region_info) (l : list (Z * Z)) :
  forall m cfg,
  (forall off len, In (off, len) l ->
     0 <= len < 2 ^ 31 /\ pread_count h len (ri_offset info + off) = len) ->
  let '(m', cfg', r) := vfio_pci_igd_copy h m cfg info l in
  r = 0 /\
  m' = set_io m (io m ++ map (copy_read info) l) /\
  forall i, cfg' i = if existsb (covers i) l then fd_bytes h (ri_offset info + i) else cfg i.
Proof.
  induction l as [|[off len] l IH]; intros m cfg Hl; cbn [vfio_pci_igd_copy].
  - split; [reflexivity|]. split; [|intros; reflexivity].
    destruct m; unfold set_io; simpl; rewrite app_nil_r; reflexivity.
  - destruct (Hl off len (or_introl eq_refl)) as [Hlen Hr].
    unfold pread. lazy beta iota zeta. rewrite Hr, (to_int_small len Hlen), Z.eqb_refl.
    lazy beta iota zeta.
    specialize (IH (add_io m (IoPread len (ri_offset info + off)))
      (fun i => if (off <=? i) && (i <? off + Z.min len len)
                then fd_bytes h (ri_offset info + off + (i - off)) else cfg i)
      (fun o n Hin => Hl o n (or_intror Hin))).
    destruct (vfio_pci_igd_copy h _ _ info l) as [[m' cfg'] r].
    destruct IH as (R & M & C).
    split; [exact R|]. split.
    + rewrite M. unfold add_io, set_io. simpl. rewrite <- app_assoc. reflexivity.
    + intros i. rewrite C, Z.min_id. cbn [existsb].
      destruct (existsb (covers i) l); [rewrite orb_true_r; reflexivity|].
      destruct (covers i (off, len)) eqn:Ec; unfold covers in Ec; cbn [fst snd] in Ec;
        rewrite Ec; simpl; [f_equal; lia | reflexivity].
Qed.

(** The reads issued up to a short one, which stops the copy. *)
Lemma igd_copy_short (h : Host) (info : vfio_region_info) (pre post : list (Z * Z))
    (off len : Z) :
  forall m cfg,
  (forall o n, In (o, n) pre ->
     0 <= n < 2 ^ 31 /\ pread_count h n (ri_offset info + o) = n) ->
  to_int (pread_count h len (ri_offset info + off)) <> len ->
  let '(m', cfg', r) := vfio_pci_igd_copy h m cfg info (pre ++ (off, len) :: post) in
  r = - errno h /\
  m' = set_log (set_io m (io m ++ map (copy_read info) (pre ++ [(off, len)])))
               (log m ++ [MsgCopyFailed]).
Proof.
  induction pre as [|[o n] pre IH]; intros m cfg Hpre Hshort; cbn [app vfio_pci_igd_copy].
  - unfold pread. lazy beta iota zeta.
    apply Z.eqb_neq in Hshort. rewrite Hshort. cbn [negb].
    split; reflexivity.
  - destruct (Hpre o n (or_introl eq_refl)) as [Hn Hr].
    unfold pread at 1. lazy beta iota zeta. rewrite Hr, (to_int_small n Hn), Z.eqb_refl.
    lazy beta iota zeta.
    match goal with
    | |- context [vfio_pci_igd_copy h ?m1 ?c1 info _] =>
        specialize (IH m1 c1 (fun o' n' Hin => Hpre o' n' (or_intror Hin)) Hshort)
    end.
    destruct (vfio_pci_igd_copy h _ _ info (pre ++ (off, len) :: post)) as [[m' cfg'] r].
    destruct IH as (R & M). split; [exact R|].
    rewrite M. unfold add_io, set_io, set_log. simpl. rewrite <- app_assoc. reflexivity.
Qed.

(** A successful OpRegion setup, step by step. *)
Lemma setup_opregion_ok (h : Host) (m m' : Machine) :
  vfio_pci_igd_setup_opregion h m = (m', Success) ->
  exists info,
    hotplugged (vdev m) = false /\
    dev_region_info h VFIO_REGION_SUBTYPE_INTEL_IGD_OPREGION = Some info /\
    u64 (to_int (pread_count h (ri_size info) (ri_offset info))) = ri_size info /\
    let c := buffer_contents (fst (pread h (fun _ => 0) 0 (ri_size info) (ri_offset info)))
                             (ri_size info) in
    m' = update_vdev
           (fw_cfg_add_file
              (update_vdev
                 (add_io (add_io m (IoDevRegionInfo VFIO_REGION_SUBTYPE_INTEL_IGD_OPREGION))
                         (IoPread (ri_size info) (ri_offset info)))
                 (fun v => set_igd_opregion v (Some c)))
              "etc/igd-opregion" c)
           (fun v => set_reg_long v IGD_ASLS 0 (Z.lnot 0) (Z.lnot 0)).
Proof.
  intros H. unfold vfio_pci_igd_setup_opregion in H.
  destruct (hotplugged (vdev m)) eqn:Hh; [discriminate|].
  cbn [vfio_get_dev_region_info] in H. lazy beta iota zeta in H.
  destruct (dev_region_info h VFIO_REGION_SUBTYPE_INTEL_IGD_OPREGION) as [info|] eqn:Hi;
    [|discriminate].
  exists info. split; [reflexivity|]. split; [reflexivity|].
  unfold vfio_pci_igd_opregion_init in H.
  destruct (pread h (fun _ => 0) 0 (ri_size info) (ri_offset info)) as [buf r] eqn:Hp.
  assert (Hr : r = pread_count h (ri_size info) (ri_offset info))
    by (unfold pread in Hp; inversion Hp; reflexivity).
  destruct (u64 (to_int r) =? ri_size info) eqn:Hs; [|discriminate].
  apply Z.eqb_eq in Hs. split; [rewrite <- Hr; exact Hs|].
  cbv zeta. cbn [fst]. pose proof (f_equal fst H) as Hm. cbn [fst negb] in Hm.
  exact (eq_sym Hm).
Qed.

Lemma pread_buffer (h : Host) (buf : bytes) (dst len off i : Z) :
  pread_count h len off = len -> dst <= i < dst + len ->
  fst (pread h buf dst len off) i = fd_bytes h (off + (i - dst)).
Proof.
  intros Hr Hi. unfold pread. cbn [fst]. rewrite Hr, Z.min_id.
  destruct (Z.leb_spec dst i), (Z.ltb_spec i (dst + len)); simpl; try reflexivity; lia.
Qed.

(** X1: when the OpRegion (under 2 GiB) reads in full, setup succeeds: the
    device keeps a copy of the region's bytes, which is published as
    "etc/igd-opregion", and ASLS reads 0, fully writable and emulated. *)
Theorem setup_opregion_full_read (h : Host) (m : Machine) (info : vfio_region_info) :
  hotplugged (vdev m) = false ->
  dev_region_info h VFIO_REGION_SUBTYPE_INTEL_IGD_OPREGION = Some info ->
  0 <= ri_size info < 2 ^ 31 ->
  pread_count h (ri_size info) (ri_offset info) = ri_size info ->
  let c := map (fun i => fd_bytes h (ri_offset info + Z.of_nat i))
               (seq 0 (Z.to_nat (ri_size info))) in
  let (m', r) := vfio_pci_igd_setup_opregion h m in
  r = Success /\
  igd_opregion (vdev m') = Some c /\
  fw_cfg m' = (fw_cfg m ++ [("etc/igd-opregion", c)])%list /\
  io m' = (io m ++ [IoDevRegionInfo VFIO_REGION_SUBTYPE_INTEL_IGD_OPREGION;
                    IoPread (ri_size info) (ri_offset info)])%list /\
  pci_get_long (config (vdev m')) IGD_ASLS = 0 /\
  pci_get_long (wmask (vdev m')) IGD_ASLS = 0xffffffff /\
  pci_get_long (emulated_config_bits (vdev m')) IGD_ASLS = 0xffffffff.
Proof.
  intros Hh Hi Hs Hr c.
  assert (Hc : buffer_contents (fst (pread h (fun _ => 0) 0 (ri_size info) (ri_offset info)))
                 (ri_size info) = c).
  { unfold buffer_contents, c. apply map_ext_in. intros i Hin.
    apply in_seq in Hin. rewrite pread_buffer by (try exact Hr; lia).
    f_equal. lia. }
  unfold vfio_pci_igd_setup_opregion. rewrite Hh.
  cbn [vfio_get_dev_region_info]. rewrite Hi. lazy beta iota zeta.
  unfold vfio_pci_igd_opregion_init.
  destruct (pread h (fun _ => 0) 0 (ri_size info) (ri_offset info)) as [buf r] eqn:Hp.
  try rewrite Hp in Hc. cbn [fst] in Hc. rewrite Hc.
  assert (Hr' : r = ri_size info) by (unfold pread in Hp; inversion Hp; congruence).
  subst r. rewrite to_int_small by lia. unfold u64. rewrite Z.mod_small by lia.
  rewrite Z.eqb_refl. cbn [negb].
  unfold update_vdev, fw_cfg_add_file, add_io. cbn [vdev fw_cfg io set_vdev set_fw_cfg set_io].
  rewrite <- app_assoc.
  split; [reflexivity|]. split; [reflexivity|]. split; [reflexivity|]. split; [reflexivity|].
  unfold set_reg_long. cbn [config wmask emulated_config_bits set_config set_wmask
    set_emulated_config_bits].
  rewrite !pci_get_set_long. split; [reflexivity|]. split; reflexivity.
Qed.

(** X2: the byte count of [pread] is kept in an [int], so an OpRegion of
    2 GiB or more (below 2^64 - 2 GiB) never passes the size check, however
    many bytes the read returns: no copy is kept and no file is published. *)
Theorem opregion_init_large_region_fails (h : Host) (m : Machine) (info : vfio_region_info) :
  2 ^ 31 <= ri_size info < 2 ^ 64 - 2 ^ 31 ->
  let (m', r) := vfio_pci_igd_opregion_init h m info in
  r = Failure ReadFailed /\ igd_opregion (vdev m') = None /\ fw_cfg m' = fw_cfg m.
Proof.
  intros Hs. unfold vfio_pci_igd_opregion_init.
  destruct (pread h (fun _ => 0) 0 (ri_size info) (ri_offset info)) as [buf r].
  assert (Hne : u64 (to_int r) <> ri_size info).
  { unfold u64, to_int.
    pose proof (Z.mod_pos_bound r (2 ^ 32) ltac:(lia)) as Hq.
    destruct (Z.ltb_spec (r mod 2 ^ 32) (2 ^ 31)).
    - rewrite Z.mod_small by lia. lia.
    - rewrite <- (Z.mod_add _ 1 (2 ^ 64)) by lia. rewrite Z.mod_small by lia. lia. }
  apply Z.eqb_neq in Hne. rewrite Hne. cbn [negb].
  split; [reflexivity|]. split; reflexivity.
Qed.

Lemma lpc_infos_len (off len : Z) : In (off, len) igd_lpc_bridge_infos -> len = 2.
Proof. simpl. intros H; repeat destruct H as [H|H]; try inversion H; auto; contradiction. Qed.

Lemma host_infos_len (off len : Z) : In (off, len) igd_host_bridge_infos -> len = 2.
Proof. simpl. intros H; repeat destruct H as [H|H]; try inversion H; auto; contradiction. Qed.

(** X5: when every bridge register reads in full, bridge setup succeeds, the
    device at 1f.0 is a vfio-pci-igd-lpc-bridge (the one found there, or a
    new one) holding the host LPC bridge's IDs, and the host bridge holds the
    host's revision and subsystem IDs. *)
Theorem setup_lpc_bridge_full_copy (h : Host) (m : Machine)
    (lpc host : vfio_region_info) (hb : PCIDevice) :
  hotplugged (vdev m) = false ->
  (forall d, root_bus m (PCI_DEVFN 0x1f 0) = Some d ->
             object_dynamic_cast d TYPE_VFIO_PCI_IGD_LPC_BRIDGE = true) ->
  dev_region_info h VFIO_REGION_SUBTYPE_INTEL_IGD_LPC_CFG = Some lpc ->
  dev_region_info h VFIO_REGION_SUBTYPE_INTEL_IGD_HOST_CFG = Some host ->
  root_bus m (PCI_DEVFN 0 0) = Some hb ->
  (forall off len, In (off, len) igd_lpc_bridge_infos ->
     pread_count h len (ri_offset lpc + off) = len) ->
  (forall off len, In (off, len) igd_host_bridge_infos ->
     pread_count h len (ri_offset host + off) = len) ->
  let old := match root_bus m (PCI_DEVFN 0x1f 0) with
             | Some d => d | None => new_lpc_bridge h end in
  let (m', r) := vfio_pci_igd_setup_lpc_bridge h m in
  r = Success /\
  (exists d, root_bus m' (PCI_DEVFN 0x1f 0) = Some d /\
     pd_types d = pd_types old /\
     object_dynamic_cast d TYPE_VFIO_PCI_IGD_LPC_BRIDGE = true /\
     vfio_pci_igd_lpc_bridge_realize (PCI_DEVFN 0x1f 0) = None /\
     forall i, pd_config d i =
       if existsb (covers i) igd_lpc_bridge_infos
       then fd_bytes h (ri_offset lpc + i) else pd_config old i) /\
  (exists d, root_bus m' (PCI_DEVFN 0 0) = Some d /\
     pd_types d = pd_types hb /\
     forall i, pd_config d i =
       if existsb (covers i) igd_host_bridge_infos
       then fd_bytes h (ri_offset host + i) else pd_config hb i) /\
  log m' = log m /\
  io m' = (io m ++ [IoDevRegionInfo VFIO_REGION_SUBTYPE_INTEL_IGD_LPC_CFG;
                    IoDevRegionInfo VFIO_REGION_SUBTYPE_INTEL_IGD_HOST_CFG] ++
           map (copy_read lpc) igd_lpc_bridge_infos ++
           map (copy_read host) igd_host_bridge_infos)%list.
Proof.
  intros Hhot Hcomp Hl Hh Hhb Hrl Hrh old.
  assert (Hold : object_dynamic_cast old TYPE_VFIO_PCI_IGD_LPC_BRIDGE = true).
  { unfold old. destruct (root_bus m (PCI_DEVFN 0x1f 0)) as [d0|] eqn:Hd0;
      [apply Hcomp; reflexivity | reflexivity]. }
  unfold vfio_pci_igd_setup_lpc_bridge. rewrite Hhot.
  assert (Hconf : match root_bus m (PCI_DEVFN 0x1f 0) with
                  | Some lpc_bridge =>
                      negb (object_dynamic_cast lpc_bridge TYPE_VFIO_PCI_IGD_LPC_BRIDGE)
                  | None => false end = false).
  { destruct (root_bus m (PCI_DEVFN 0x1f 0)) as [d0|] eqn:Hd0; [|reflexivity].
    rewrite (Hcomp d0 eq_refl). reflexivity. }
  rewrite Hconf. cbn [vfio_get_dev_region_info]. rewrite Hl, Hh. lazy beta iota zeta.
  set (m1 := add_io (add_io m _) _).
  unfold vfio_pci_igd_lpc_init.
  assert (E1 : (match root_bus m1 (PCI_DEVFN 0x1f 0) with
                | Some d => (m1, d)
                | None => (set_bus_dev m1 (PCI_DEVFN 0x1f 0) (new_lpc_bridge h),
                           new_lpc_bridge h) end) =
               (match root_bus m (PCI_DEVFN 0x1f 0) with
                | Some _ => m1
                | None => set_bus_dev m1 (PCI_DEVFN 0x1f 0) (new_lpc_bridge h) end, old)).
  { unfold old. change (root_bus m1) with (root_bus m).
    destruct (root_bus m (PCI_DEVFN 0x1f 0)); reflexivity. }
  rewrite E1. lazy beta iota zeta.
  set (m1' := match root_bus m (PCI_DEVFN 0x1f 0) with
              | Some _ => m1 | None => _ end).
  assert (Fl : forall o n, In (o, n) igd_lpc_bridge_infos ->
                0 <= n < 2 ^ 31 /\ pread_count h n (ri_offset lpc + o) = n).
  { intros o n Hin. split; [pose proof (lpc_infos_len o n Hin); lia | apply Hrl, Hin]. }
  pose proof (igd_copy_full h lpc igd_lpc_bridge_infos m1' (pd_config old) Fl) as C1.
  destruct (vfio_pci_igd_copy h m1' (pd_config old) lpc igd_lpc_bridge_infos)
    as [[m2 cfg2] r2].
  destruct C1 as (R2 & M2 & C2). subst r2 m2. cbn [Z.eqb negb]. lazy beta iota zeta.
  unfold vfio_pci_igd_host_init.
  set (m3 := set_bus_dev (set_io m1' _) _ _).
  assert (Hb3 : root_bus m3 (PCI_DEVFN 0 0) = Some hb).
  { unfold m3, m1', m1. destruct (root_bus m (PCI_DEVFN 0x1f 0)); exact Hhb. }
  rewrite Hb3. lazy beta iota zeta.
  assert (Fh : forall o n, In (o, n) igd_host_bridge_infos ->
                0 <= n < 2 ^ 31 /\ pread_count h n (ri_offset host + o) = n).
  { intros o n Hin. split; [pose proof (host_infos_len o n Hin); lia | apply Hrh, Hin]. }
  pose proof (igd_copy_full h host igd_host_bridge_infos m3 (pd_config hb) Fh) as C3.
  destruct (vfio_pci_igd_copy h m3 (pd_config hb) host igd_host_bridge_infos)
    as [[m4 cfg4] r4].
  destruct C3 as (R4 & M4 & C4). subst r4 m4. cbn [Z.eqb negb]. lazy beta iota zeta.
  split; [reflexivity|].
  split; [|split; [|split]].
  - exists (set_pd_config old cfg2). split.
    + unfold m3, m1', m1. destruct (root_bus m (PCI_DEVFN 0x1f 0)); reflexivity.
    + split; [reflexivity|]. split; [exact Hold|]. split; [reflexivity|]. exact C2.
  - exists (set_pd_config hb cfg4). split; [reflexivity|]. split; [reflexivity|]. exact C4.
  - unfold m3, m1', m1. destruct (root_bus m (PCI_DEVFN 0x1f 0)); reflexivity.
  - unfold m3, m1', m1. destruct (root_bus m (PCI_DEVFN 0x1f 0)); simpl;
      rewrite <- !app_assoc; reflexivity.
Qed.

(** X6: [vfio_pci_igd_copy] returns [-errno] on a short read, so when
    [errno] is 0 a short read of the LPC vendor ID is taken for success:
    bridge setup succeeds although the LPC device ID, revision and
    subsystem registers were never read. *)
Theorem setup_lpc_bridge_short_read_errno_zero (h : Host) (m : Machine)
    (lpc host : vfio_region_info) (hb : PCIDevice) :
  hotplugged (vdev m) = false ->
  (forall d, root_bus m (PCI_DEVFN 0x1f 0) = Some d ->
             object_dynamic_cast d TYPE_VFIO_PCI_IGD_LPC_BRIDGE = true) ->
  dev_region_info h VFIO_REGION_SUBTYPE_INTEL_IGD_LPC_CFG = Some lpc ->
  dev_region_info h VFIO_REGION_SUBTYPE_INTEL_IGD_HOST_CFG = Some host ->
  root_bus m (PCI_DEVFN 0 0) = Some hb ->
  errno h = 0 ->
  to_int (pread_count h 2 (ri_offset lpc + PCI_VENDOR_ID)) <> 2 ->
  (forall off len, In (off, len) igd_host_bridge_infos ->
     pread_count h len (ri_offset host + off) = len) ->
  let (m', r) := vfio_pci_igd_setup_lpc_bridge h m in
  r = Success /\
  log m' = (log m ++ [MsgCopyFailed])%list /\
  io m' = (io m ++ [IoDevRegionInfo VFIO_REGION_SUBTYPE_INTEL_IGD_LPC_CFG;
                    IoDevRegionInfo VFIO_REGION_SUBTYPE_INTEL_IGD_HOST_CFG;
                    IoPread 2 (ri_offset lpc + PCI_VENDOR_ID)] ++
           map (copy_read host) igd_host_bridge_infos)%list.
Proof.
  intros Hhot Hcomp Hl Hh Hhb He Hshort Hrh.
  unfold vfio_pci_igd_setup_lpc_bridge. rewrite Hhot.
  assert (Hconf : match root_bus m (PCI_DEVFN 0x1f 0) with
                  | Some lpc_bridge =>
                      negb (object_dynamic_cast lpc_bridge TYPE_VFIO_PCI_IGD_LPC_BRIDGE)
                  | None => false end = false).
  { destruct (root_bus m (PCI_DEVFN 0x1f 0)) as [d0|] eqn:Hd0; [|reflexivity].
    rewrite (Hcomp d0 eq_refl). reflexivity. }
  rewrite Hconf. cbn [vfio_get_dev_region_info]. rewrite Hl, Hh. lazy beta iota zeta.
  set (m1 := add_io (add_io m _) _).
  unfold vfio_pci_igd_lpc_init.
  destruct (match root_bus m1 (PCI_DEVFN 0x1f 0) with
            | Some d => (m1, d) | None => _ end) as [m1' old] eqn:E1.
  assert (K1 : log m1' = log m1 /\ io m1' = io m1 /\
               root_bus m1' (PCI_DEVFN 0 0) = Some hb).
  { change (root_bus m1) with (root_bus m) in E1.
    destruct (root_bus m (PCI_DEVFN 0x1f 0)); inversion E1; subst; repeat split;
      exact Hhb. }
  pose proof (igd_copy_short h lpc [] (tl igd_lpc_bridge_infos) PCI_VENDOR_ID 2
                m1' (pd_config old) (fun o n Hin => False_ind _ Hin) Hshort) as C1.
  change ([] ++ (PCI_VENDOR_ID, 2) :: tl igd_lpc_bridge_infos)%list
    with igd_lpc_bridge_infos in C1.
  destruct (vfio_pci_igd_copy h m1' (pd_config old) lpc igd_lpc_bridge_infos)
    as [[m2 cfg2] r2].
  destruct C1 as (R2 & M2). rewrite He in R2. subst r2 m2.
  cbn [Z.opp Z.eqb negb]. lazy beta iota zeta.
  unfold vfio_pci_igd_host_init.
  set (m3 := set_bus_dev _ _ _).
  assert (Hb3 : root_bus m3 (PCI_DEVFN 0 0) = Some hb) by exact (proj2 (proj2 K1)).
  rewrite Hb3. lazy beta iota zeta.
  assert (Fh : forall o n, In (o, n) igd_host_bridge_infos ->
                0 <= n < 2 ^ 31 /\ pread_count h n (ri_offset host + o) = n).
  { intros o n Hin. split; [pose proof (host_infos_len o n Hin); lia | apply Hrh, Hin]. }
  pose proof (igd_copy_full h host igd_host_bridge_infos m3 (pd_config hb) Fh) as C3.
  destruct (vfio_pci_igd_copy h m3 (pd_config hb) host igd_host_bridge_infos)
    as [[m4 cfg4] r4].
  destruct C3 as (R4 & M4 & _). subst r4 m4. cbn [Z.eqb negb]. lazy beta iota zeta.
  destruct K1 as (L1 & I1 & _).
  split; [reflexivity|]. split.
  - simpl. rewrite L1. reflexivity.
  - simpl. rewrite I1. unfold m1. simpl. rewrite <- !app_assoc. reflexivity.
Qed.

Lemma lt_pow2_bits (x n : Z) :
  0 <= n -> 0 <= x -> (forall j, n <= j -> Z.testbit x j = false) -> x < 2 ^ n.
Proof.
  intros Hn Hx Hb.
  assert (E : x = x mod 2 ^ n).
  { apply Z.bits_inj'. intros j Hj. destruct (Z.lt_ge_cases j n).
    - rewrite Z.mod_pow2_bits_low by lia. reflexivity.
    - rewrite Z.mod_pow2_bits_high by lia. apply Hb. lia. }
  rewrite E. apply Z.mod_pos_bound. lia.
Qed.

Lemma testbit_high (x n j : Z) : 0 <= x < 2 ^ n -> 0 <= n <= j -> Z.testbit x j = false.
Proof.
  intros Hx Hj. rewrite <- (Z.mod_small x (2 ^ n)) by lia.
  apply Z.mod_pow2_bits_high. lia.
Qed.

(** The GMCH value the override block returns is a [uint32_t]. *)
Lemma apply_gms_range (m : Machine) (gen g : Z) :
  0 <= g < 2 ^ 32 -> 0 <= snd (vfio_igd_apply_gms m gen g) < 2 ^ 32.
Proof.
  intros Hg.
  assert (K : forall M U, 0 <= Z.lor (Z.land g (u32 M)) (u32 U) < 2 ^ 32).
  { intros M U. pose proof (u32_range M). pose proof (u32_range U).
    assert (0 <= Z.lor (Z.land g (u32 M)) (u32 U)).
    { apply Z.lor_nonneg. split; [apply Z.land_nonneg; lia | lia]. }
    split; [assumption|]. apply lt_pow2_bits; [lia|assumption|].
    intros j Hj. rewrite Z.lor_spec, Z.land_spec.
    rewrite (testbit_high g 32 j), (testbit_high (u32 U) 32 j) by lia. reflexivity. }
  unfold vfio_igd_apply_gms.
  destruct (negb _); [|exact Hg].
  destruct (gen <? 8); [destruct (igd_gms (vdev m) <=? 0x10) | destruct (igd_gms (vdev m) <=? 0x40)];
    cbn [snd]; try exact Hg; apply K.
Qed.

Lemma apply_gms_keeps (m : Machine) (gen g : Z) :
  let m' := fst (vfio_igd_apply_gms m gen g) in
  vdev m' = vdev m /\ fw_cfg m' = fw_cfg m /\ root_bus m' = root_bus m.
Proof.
  unfold vfio_igd_apply_gms.
  destruct (negb _); [|repeat split; reflexivity].
  destruct (gen <? 8); [destruct (igd_gms (vdev m) <=? 0x10) | destruct (igd_gms (vdev m) <=? 0x40)];
    repeat split; reflexivity.
Qed.

Lemma load_le_store_other (a : bytes) (off' n' v : Z) (n : nat) :
  forall off, off + Z.of_nat n <= off' \/ off' + n' <= off ->
  load_le (store_le a off' n' v) off n = load_le a off n.
Proof.
  induction n as [|n IH]; intros off Hd; cbn [load_le]; [reflexivity|].
  rewrite store_le_outside by lia. rewrite IH by lia. reflexivity.
Qed.

Lemma le_bytes_length (n : nat) : forall v, List.length (le_bytes n v) = n.
Proof. induction n as [|n IH]; intros v; simpl; [reflexivity|]. rewrite IH. reflexivity. Qed.

Lemma le_bytes_range (n : nat) : forall v, Forall (fun b => 0 <= b < 256) (le_bytes n v).
Proof.
  induction n as [|n IH]; intros v; simpl; constructor; [|apply IH].
  change 0xff with (Z.ones 8). rewrite Z.land_ones by lia. apply Z.mod_pos_bound. lia.
Qed.

Lemma u64_range (x : Z) : 0 <= u64 x < 2 ^ 64.
Proof. unfold u64. apply Z.mod_pos_bound. lia. Qed.

Lemma stolen_size_exact (gen gmch : Z) :
  igd_stolen_memory_size gen gmch = spec_stolen_size gen gmch.
Proof.
  unfold igd_stolen_memory_size, spec_stolen_size, spec_size_of_field.
  rewrite gms_field_code.
  pose proof (spec_gms_field_range gen gmch) as Hf.
  set (f := spec_gms_field gen gmch) in *.
  unfold u64, MiB.
  destruct (gen <? 9); [|destruct (f <? 0xf0) eqn:Hlt];
    try apply Z.ltb_ge in Hlt; apply Z.mod_small; lia.
Qed.

Lemma stolen_size_u64 (gen gmch : Z) :
  0 <= igd_stolen_memory_size gen gmch < 2 ^ 64.
Proof.
  unfold igd_stolen_memory_size.
  destruct (gen <? 9); [|destruct (_ <? 0xf0)]; apply u64_range.
Qed.

Lemma spec_gms_field_range5 (gen gmch : Z) : gen < 8 -> 0 <= spec_gms_field gen gmch < 32.
Proof.
  intros Hg. unfold spec_gms_field. destruct (Z.ltb_spec gen 8); [|lia].
  pose proof (Z.mod_pos_bound (gmch / 2 ^ 3) (2 ^ 5) ltac:(lia)). lia.
Qed.

(** The vga step of the BAR4 quirk only sets [vdev->vga]. *)
Lemma vga_step_keeps (h : Host) (m0 m1 : Machine) (c : bool) :
  (if c then let '(m, ok) := vfio_populate_vga h m0 in (m, negb ok) else (m0, false))
    = (m1, false) ->
  config (vdev m1) = config (vdev m0) /\ wmask (vdev m1) = wmask (vdev m0) /\
  emulated_config_bits (vdev m1) = emulated_config_bits (vdev m0) /\
  bar_quirks (vdev m1) = bar_quirks (vdev m0) /\
  igd_opregion (vdev m1) = igd_opregion (vdev m0) /\
  hotplugged (vdev m1) = hotplugged (vdev m0) /\
  fw_cfg m1 = fw_cfg m0 /\ root_bus m1 = root_bus m0.
Proof.
  intros H. destruct c.
  - unfold vfio_populate_vga in H. destruct (populate_vga_ok h); [|discriminate].
    pose proof (f_equal fst H) as Hm. cbn [fst] in Hm. subst m1.
    repeat split; reflexivity.
  - pose proof (f_equal fst H) as Hm. cbn [fst] in Hm. subst m1.
    repeat split; reflexivity.
Qed.

Lemma get_long_set_long_other (a : bytes) (off off' v : Z) :
  off + 4 <= off' \/ off' + 4 <= off ->
  pci_get_long (pci_set_long a off' v) off = pci_get_long a off.
Proof. intros Hd. apply load_le_store_other. simpl. lia. Qed.

Lemma get_long_set_quad_other (a : bytes) (off off' v : Z) :
  off + 4 <= off' \/ off' + 8 <= off ->
  pci_get_long (pci_set_quad a off' v) off = pci_get_long a off.
Proof. intros Hd. apply load_le_store_other. simpl. lia. Qed.

(** X8: the stolen size is a multiple of 4 MiB and at most 0xff * 32 MiB; at
    most 0x1f * 32 MiB before generation 8 and at most 0xef * 32 MiB from
    generation 9 on, where the field values 0xf0 to 0xff give 4 to 64 MiB. *)
Theorem igd_stolen_memory_size_range (gen gmch : Z) :
  let s := igd_stolen_memory_size gen gmch in
  s mod (4 * MiB) = 0 /\
  0 <= s <= 0xff * 32 * MiB /\
  (gen < 8 -> s <= 0x1f * 32 * MiB) /\
  (9 <= gen -> s <= 0xef * 32 * MiB) /\
  (9 <= gen -> 0xf0 <= spec_gms_field gen gmch -> 4 * MiB <= s <= 64 * MiB).
Proof.
  cbv zeta. rewrite stolen_size_exact.
  unfold spec_stolen_size, spec_size_of_field.
  pose proof (spec_gms_field_range gen gmch) as Hf.
  pose proof (spec_gms_field_range5 gen gmch) as H5.
  set (f := spec_gms_field gen gmch) in *. unfold MiB.
  destruct (Z.ltb_spec gen 9); [|destruct (Z.ltb_spec f 0xf0)].
  - split; [replace (f * 32 * (1024 * 1024)) with ((f * 8) * (4 * (1024 * 1024))) by ring;
            apply Z.mod_mul; lia|].
    split; [lia|]. split; [intros Hg; specialize (H5 Hg); lia|].
    split; intros; lia.
  - split; [replace (f * 32 * (1024 * 1024)) with ((f * 8) * (4 * (1024 * 1024))) by ring;
            apply Z.mod_mul; lia|].
    split; [lia|]. split; [intros; lia|]. split; intros; lia.
  - split; [replace ((f - 0xf0 + 1) * 4 * (1024 * 1024))
              with ((f - 0xf0 + 1) * (4 * (1024 * 1024))) by ring; apply Z.mod_mul; lia|].
    split; [lia|]. split; [intros; lia|]. split; intros; lia.
Qed.

(** X9: an accepted x-igd-gms value [n] publishes a stolen size of exactly
    [n] * 32 MiB, whatever the host GMCH register holds. *)
Theorem bar4_accepted_override_size (h : Host) (m m' : Machine) (nr : Z) :
  0 < igd_gms (vdev m) < 2 ^ 32 ->
  (if igd_gen (device_id (vdev m)) <? 8
   then igd_gms (vdev m) <=? 0x10 else igd_gms (vdev m) <=? 0x40) = true ->
  vfio_probe_igd_bar4_quirk h m nr = (m', Bar4Enabled) ->
  last (fw_cfg m') ("", []) =
    ("etc/igd-bdsm-size", le_bytes 8 (igd_gms (vdev m) * 32 * MiB)).
Proof.
  intros Hx A H.
  destruct (bar4_enabled_override h m m' nr ltac:(lia) H) as (used & Hfw & _ & S1 & _).
  destruct (S1 ltac:(lia) A) as (F & _ & _).
  rewrite Hfw, stolen_size_exact. unfold spec_stolen_size, spec_size_of_field.
  rewrite F.
  assert (Hle : igd_gms (vdev m) <= 0x40)
    by (destruct (igd_gen (device_id (vdev m)) <? 8); apply Z.leb_le in A; lia).
  destruct (igd_gen (device_id (vdev m)) <? 9); [reflexivity|].
  replace (igd_gms (vdev m) <? 0xf0) with true by (symmetry; apply Z.ltb_lt; lia).
  reflexivity.
Qed.

(** X10: after a completed run, GMCH reads back as a 32-bit value [g] that the
    guest cannot write (write mask 0, fully emulated), and the file
    "etc/igd-bdsm-size" holds 8 bytes whose little-endian value is the exact
    stolen size of [g]. *)
Theorem bar4_gmch_matches_bdsm_size (h : Host) (m m' : Machine) (nr : Z) :
  vfio_probe_igd_bar4_quirk h m nr = (m', Bar4Enabled) ->
  let gen := igd_gen (device_id (vdev m)) in
  let g := pci_get_long (config (vdev m')) IGD_GMCH in
  pci_get_long (wmask (vdev m')) IGD_GMCH = 0 /\
  pci_get_long (emulated_config_bits (vdev m')) IGD_GMCH = 0xffffffff /\
  exists bs,
    last (fw_cfg m') ("", []) = ("etc/igd-bdsm-size", bs) /\
    List.length bs = 8%nat /\ Forall (fun b => 0 <= b < 256) bs /\
    le_value bs = spec_stolen_size gen g.
Proof.
  intros H gen g.
  destruct (bar4_enabled_steps h m m' nr H)
    as (_ & _ & _ & _ & _ & _ & m1 & m2 & m3 & m4 & gmch & _ & _ & _ & Hap & Hm).
  fold gen in Hap, Hm.
  pose proof (apply_gms_range m3 gen (u32 (gmch_config h)) (u32_range _)) as Hr.
  rewrite Hap in Hr. cbn [snd] in Hr.
  assert (Hg : g = gmch /\
               pci_get_long (wmask (vdev m')) IGD_GMCH = 0 /\
               pci_get_long (emulated_config_bits (vdev m')) IGD_GMCH = 0xffffffff).
  { unfold g. subst m'. unfold update_vdev. cbn [vdev set_vdev].
    destruct (gen <? 11); unfold set_reg_long, set_reg_quad;
      cbn [config wmask emulated_config_bits set_config set_wmask set_emulated_config_bits];
      rewrite ?get_long_set_long_other, ?get_long_set_quad_other
        by (unfold IGD_GMCH, IGD_BDSM, IGD_BDSM_GEN11; lia);
      rewrite !pci_get_set_long;
      (split; [unfold u32; apply Z.mod_small; lia|]; split; reflexivity). }
  destruct Hg as (-> & W & E). split; [exact W|]. split; [exact E|].
  exists (le_bytes 8 (igd_stolen_memory_size gen gmch)).
  split; [subst m'; cbn [fw_cfg update_vdev set_vdev fw_cfg_add_file set_fw_cfg];
          apply last_last|].
  split; [apply le_bytes_length|]. split; [apply le_bytes_range|].
  rewrite le_value_le_bytes, Z.mod_small by apply stolen_size_u64.
  apply stolen_size_exact.
Qed.

(** X11: from generation 11 on, a completed run leaves the 8-byte BDSM register
    at 0xC0 reading 0, guest-writable and fully emulated. *)
Theorem bar4_bdsm_gen11 (h : Host) (m m' : Machine) (nr : Z) :
  11 <= igd_gen (device_id (vdev m)) ->
  vfio_probe_igd_bar4_quirk h m nr = (m', Bar4Enabled) ->
  pci_get_quad (config (vdev m')) IGD_BDSM_GEN11 = 0 /\
  pci_get_quad (wmask (vdev m')) IGD_BDSM_GEN11 = 2 ^ 64 - 1 /\
  pci_get_quad (emulated_config_bits (vdev m')) IGD_BDSM_GEN11 = 2 ^ 64 - 1.
Proof.
  intros H11 H.
  destruct (bar4_enabled_steps h m m' nr H)
    as (_ & _ & _ & _ & _ & _ & m1 & m2 & m3 & m4 & gmch & _ & _ & _ & _ & Hm).
  subst m'. replace (igd_gen (device_id (vdev m)) <? 11) with false
    by (symmetry; apply Z.ltb_ge; lia).
  unfold update_vdev. cbn [vdev set_vdev]. unfold set_reg_quad.
  cbn [config wmask emulated_config_bits set_config set_wmask set_emulated_config_bits].
  rewrite !pci_get_set_quad. split; [reflexivity|]. split; reflexivity.
Qed.

(** X12: a completed run adds exactly two fw_cfg files, "etc/igd-opregion"
    holding the device's OpRegion copy, then "etc/igd-bdsm-size". *)
Theorem bar4_enabled_fw_cfg (h : Host) (m m' : Machine) (nr : Z) :
  vfio_probe_igd_bar4_quirk h m nr = (m', Bar4Enabled) ->
  exists c b,
    fw_cfg m' = (fw_cfg m ++ [("etc/igd-opregion", c); ("etc/igd-bdsm-size", b)])%list /\
    igd_opregion (vdev m') = Some c /\ List.length b = 8%nat.
Proof.
  intros H.
  destruct (bar4_enabled_steps h m m' nr H)
    as (_ & _ & _ & _ & _ & _ & m1 & m2 & m3 & m4 & gmch & Hv & Ho & Hl & Hap & Hm).
  destruct (vga_step_keeps _ _ _ _ Hv) as (_ & _ & _ & _ & _ & _ & F1 & _).
  destruct (setup_opregion_ok h m1 m2 Ho) as (info & _ & _ & _ & Hm2). cbv zeta in Hm2.
  pose proof (setup_lpc_bridge_keeps h m2) as K3. rewrite Hl in K3. cbn [fst] in K3.
  destruct K3 as (V3 & F3 & _).
  pose proof (apply_gms_keeps m3 (igd_gen (device_id (vdev m))) (u32 (gmch_config h))) as K4.
  rewrite Hap in K4. cbn [fst] in K4. destruct K4 as (V4 & F4 & _).
  eexists; eexists. subst m'. cbn [fw_cfg update_vdev set_vdev fw_cfg_add_file set_fw_cfg].
  split; [|split].
  - rewrite F4, F3, Hm2. cbn [fw_cfg update_vdev set_vdev fw_cfg_add_file set_fw_cfg add_io set_io].
    rewrite F1. cbn [fw_cfg add_io set_io]. rewrite <- app_assoc. reflexivity.
  - destruct (igd_gen (device_id (vdev m)) <? 11);
      cbn [vdev set_vdev update_vdev igd_opregion set_reg_long set_reg_quad set_config
           set_wmask set_emulated_config_bits fw_cfg_add_file set_fw_cfg];
      rewrite V4, V3, Hm2; reflexivity.
  - apply le_bytes_length.
Qed.

Lemma bar4_accepted_override_size_witness :
  let h := sample_host 0x1000 0 in
  let m := sample_machine (sample_vdev 0x1912 0x40 false) None in
  (0 < igd_gms (vdev m) < 2 ^ 32 /\
   (if igd_gen (device_id (vdev m)) <? 8
    then igd_gms (vdev m) <=? 0x10 else igd_gms (vdev m) <=? 0x40) = true /\
   vfio_probe_igd_bar4_quirk h m 4 = (fst (vfio_probe_igd_bar4_quirk h m 4), Bar4Enabled)) /\
  last (fw_cfg (fst (vfio_probe_igd_bar4_quirk h m 4))) ("", []) =
    ("etc/igd-bdsm-size", le_bytes 8 (igd_gms (vdev m) * 32 * MiB)).
Proof.
  cbv zeta.
  assert (Hrun : vfio_probe_igd_bar4_quirk (sample_host 0x1000 0)
      (sample_machine (sample_vdev 0x1912 0x40 false) None) 4 =
    (fst (vfio_probe_igd_bar4_quirk (sample_host 0x1000 0)
      (sample_machine (sample_vdev 0x1912 0x40 false) None) 4), Bar4Enabled)).
  { rewrite (surjective_pairing (vfio_probe_igd_bar4_quirk _ _ 4)) at 1.
    f_equal; vm_compute; reflexivity. }
  split; [split; [simpl; lia|split; [vm_compute; reflexivity|exact Hrun]]|].
  exact (bar4_accepted_override_size (sample_host 0x1000 0)
      (sample_machine (sample_vdev 0x1912 0x40 false) None) _ 4 ltac:(simpl; lia) eq_refl Hrun).
Defined.

Lemma bar4_gmch_matches_bdsm_size_witness :
  let h := sample_host 0x1234 0 in
  let m := sample_machine (sample_vdev 0x1912 0 false) None in
  let m' := fst (vfio_probe_igd_bar4_quirk h m 4) in
  vfio_probe_igd_bar4_quirk h m 4 = (m', Bar4Enabled) /\
  pci_get_long (wmask (vdev m')) IGD_GMCH = 0 /\
  pci_get_long (emulated_config_bits (vdev m')) IGD_GMCH = 0xffffffff /\
  exists bs,
    last (fw_cfg m') ("", []) = ("etc/igd-bdsm-size", bs) /\
    List.length bs = 8%nat /\ Forall (fun b => 0 <= b < 256) bs /\
    le_value bs = spec_stolen_size (igd_gen (device_id (vdev m)))
                    (pci_get_long (config (vdev m')) IGD_GMCH).
Proof.
  cbv zeta.
  assert (Hrun : vfio_probe_igd_bar4_quirk (sample_host 0x1234 0)
      (sample_machine (sample_vdev 0x1912 0 false) None) 4 =
    (fst (vfio_probe_igd_bar4_quirk (sample_host 0x1234 0)
      (sample_machine (sample_vdev 0x1912 0 false) None) 4), Bar4Enabled)).
  { rewrite (surjective_pairing (vfio_probe_igd_bar4_quirk _ _ 4)) at 1.
    f_equal; vm_compute; reflexivity. }
  split; [exact Hrun|].
  exact (bar4_gmch_matches_bdsm_size _ _ _ 4 Hrun).
Defined.

Lemma bar4_bdsm_gen11_witness :
  let h := sample_host 0x1234 0 in
  let m := sample_machine (sample_vdev 0x4680 0 false) None in
  let m' := fst (vfio_probe_igd_bar4_quirk h m 4) in
  (11 <= igd_gen (device_id (vdev m)) /\
   vfio_probe_igd_bar4_quirk h m 4 = (m', Bar4Enabled)) /\
  pci_get_quad (config (vdev m')) IGD_BDSM_GEN11 = 0 /\
  pci_get_quad (wmask (vdev m')) IGD_BDSM_GEN11 = 2 ^ 64 - 1 /\
  pci_get_quad (emulated_config_bits (vdev m')) IGD_BDSM_GEN11 = 2 ^ 64 - 1.
Proof.
  cbv zeta.
  assert (Hrun : vfio_probe_igd_bar4_quirk (sample_host 0x1234 0)
      (sample_machine (sample_vdev 0x4680 0 false) None) 4 =
    (fst (vfio_probe_igd_bar4_quirk (sample_host 0x1234 0)
      (sample_machine (sample_vdev 0x4680 0 false) None) 4), Bar4Enabled)).
  { rewrite (surjective_pairing (vfio_probe_igd_bar4_quirk _ _ 4)) at 1.
    f_equal; vm_compute; reflexivity. }
  split; [split; [vm_compute; discriminate|exact Hrun]|].
  exact (bar4_bdsm_gen11 (sample_host 0x1234 0)
      (sample_machine (sample_vdev 0x4680 0 false) None) _ 4
      ltac:(vm_compute; discriminate) Hrun).
Defined.

Lemma bar4_enabled_fw_cfg_witness :
  let h := sample_host 0x1234 0 in
  let m := sample_machine (sample_vdev 0x1912 0 false) None in
  let m' := fst (vfio_probe_igd_bar4_quirk h m 4) in
  vfio_probe_igd_bar4_quirk h m 4 = (m', Bar4Enabled) /\
  exists c b,
    fw_cfg m' = (fw_cfg m ++ [("etc/igd-opregion", c); ("etc/igd-bdsm-size", b)])%list /\
    igd_opregion (vdev m') = Some c /\ List.length b = 8%nat.
Proof.
  cbv zeta.
  assert (Hrun : vfio_probe_igd_bar4_quirk (sample_host 0x1234 0)
      (sample_machine (sample_vdev 0x1912 0 false) None) 4 =
    (fst (vfio_probe_igd_bar4_quirk (sample_host 0x1234 0)
      (sample_machine (sample_vdev 0x1912 0 false) None) 4), Bar4Enabled)).
  { rewrite (surjective_pairing (vfio_probe_igd_bar4_quirk _ _ 4)) at 1.
    f_equal; vm_compute; reflexivity. }
  split; [exact Hrun|].
  exact (bar4_enabled_fw_cfg _ _ _ 4 Hrun).
Defined.









(** [igd_gen] is -1 or at least 6. *)
Lemma igd_gen_values (d : Z) : igd_gen d = -1 \/ 6 <= igd_gen d.
Proof.
  unfold igd_gen, igd_gen_switch.
  destruct (_ =? 0xa84); [right; lia|].
  repeat match goal with |- context [if ?b then _ else _] => destruct b end; lia.
Qed.

Lemma bar0_quirk_ids (m : Machine) (nr : Z) :
  let v' := vdev (vfio_probe_igd_bar0_quirk m nr) in
  vendor_id v' = vendor_id (vdev m) /\ is_vga v' = is_vga (vdev m) /\
  devfn v' = devfn (vdev m) /\ device_id v' = device_id (vdev m).
Proof.
  unfold vfio_probe_igd_bar0_quirk. cbv zeta.
  destruct (_ || _); [repeat split|]. destruct (_ <? 6); repeat split.
Qed.

Lemma load_store_le_prefix (a : bytes) (off n v : Z) (k : nat) :
  Z.of_nat k <= n -> load_le (store_le a off n v) off k = v mod 2 ^ (8 * Z.of_nat k).
Proof.
  intros Hk. apply load_le_bytes. intros i Hi. unfold store_le.
  destruct (Z.leb_spec off i), (Z.ltb_spec i (off + n)); simpl; try reflexivity; lia.
Qed.

(** The device fields the BAR4 quirk leaves alone on a completed run. *)
Lemma bar4_enabled_quirks (h : Host) (m m' : Machine) (nr : Z) :
  vfio_probe_igd_bar4_quirk h m nr = (m', Bar4Enabled) ->
  bar_quirks (vdev m') = bar_quirks (vdev m).
Proof.
  intros H.
  destruct (bar4_enabled_steps h m m' nr H)
    as (_ & _ & _ & _ & _ & _ & m1 & m2 & m3 & m4 & gmch & Hv & Ho & Hl & Hap & Hm).
  destruct (vga_step_keeps _ _ _ _ Hv) as (_ & _ & _ & Q1 & _).
  destruct (setup_opregion_ok h m1 m2 Ho) as (info & _ & _ & _ & Hm2). cbv zeta in Hm2.
  pose proof (setup_lpc_bridge_keeps h m2) as K3. rewrite Hl in K3. cbn [fst] in K3.
  destruct K3 as (V3 & _).
  pose proof (apply_gms_keeps m3 (igd_gen (device_id (vdev m))) (u32 (gmch_config h))) as K4.
  rewrite Hap in K4. cbn [fst] in K4. destruct K4 as (V4 & _).
  subst m'. destruct (igd_gen (device_id (vdev m)) <? 11);
    cbn [vdev set_vdev update_vdev bar_quirks set_reg_long set_reg_quad set_config
         set_wmask set_emulated_config_bits fw_cfg_add_file set_fw_cfg];
    rewrite V4, V3, Hm2; cbn; exact Q1.
Qed.

(** X14: when the BAR0 quirk and then the BAR4 quirk run on the device
    (bars 0 and 4) and the BAR4 quirk completes, BAR0 carries the BDSM mirror
    and then the GGC mirror in front of its earlier quirks; the config window
    of the BDSM mirror reads 0 and is fully writable and emulated, and the
    2-byte window of the GGC mirror reads the low 16 bits of the emulated
    GMCH, read-only and fully emulated. *)
Theorem bar0_bar4_mirrors (h : Host) (m m2 : Machine) :
  vfio_probe_igd_bar4_quirk h (vfio_probe_igd_bar0_quirk m 0) 4 = (m2, Bar4Enabled) ->
  exists bdsm ggc,
    bar_quirks (vdev m2) 0 = (bdsm :: ggc :: bar_quirks (vdev m) 0)%list /\
    mirror_offset bdsm = IGD_BDSM_MMIO_OFFSET /\ mirror_offset ggc = IGD_GGC_MMIO_OFFSET /\
    let rd a q := load_le a (mirror_config_offset q) (Z.to_nat (mirror_size q)) in
    rd (config (vdev m2)) bdsm = 0 /\
    rd (wmask (vdev m2)) bdsm = 2 ^ (8 * mirror_size bdsm) - 1 /\
    rd (emulated_config_bits (vdev m2)) bdsm = 2 ^ (8 * mirror_size bdsm) - 1 /\
    rd (config (vdev m2)) ggc = pci_get_long (config (vdev m2)) IGD_GMCH mod 2 ^ 16 /\
    rd (wmask (vdev m2)) ggc = 0 /\
    rd (emulated_config_bits (vdev m2)) ggc = 0xffff.
Proof.
  intros H. pose proof (bar4_enabled_quirks _ _ _ _ H) as Q.
  set (m1 := vfio_probe_igd_bar0_quirk m 0) in H, Q.
  destruct (bar0_quirk_ids m 0) as (I1 & I2 & I3 & I4). fold m1 in I1, I2, I3, I4.
  destruct (bar4_enabled_steps h m1 m2 4 H)
    as (Hi & Hg & _ & Ha & Hgen & _ & ma & mb & mc & md & gmch & _ & _ & _ & _ & Hm).
  unfold vfio_pci_is in Hi. unfold at_igd_address in Ha.
  rewrite I1 in Hi. rewrite I2 in Hg. rewrite I3 in Ha. rewrite I4 in Hgen, Hm.
  set (gen := igd_gen (device_id (vdev m))) in Hgen, Hm.
  assert (G6 : 6 <= gen) by (destruct (igd_gen_values (device_id (vdev m))); [contradiction|assumption]).
  assert (Hq : bar_quirks (vdev m1) 0 =
    ({| mirror_bar := 0; mirror_offset := IGD_BDSM_MMIO_OFFSET;
        mirror_config_offset := if gen <? 11 then IGD_BDSM else IGD_BDSM_GEN11;
        mirror_size := if gen <? 11 then 4 else 8;
        mirror_name := "vfio-igd-bdsm-quirk" |} ::
     {| mirror_bar := 0; mirror_offset := IGD_GGC_MMIO_OFFSET;
        mirror_config_offset := IGD_GMCH; mirror_size := 2;
        mirror_name := "vfio-igd-ggc-quirk" |} :: bar_quirks (vdev m) 0)%list).
  { unfold m1, vfio_probe_igd_bar0_quirk, vfio_pci_is, at_igd_address. cbv zeta.
    rewrite Hi, Hg, Ha. fold gen.
    replace (gen <? 6) with false by (symmetry; apply Z.ltb_ge; lia).
    reflexivity. }
  clearbody m1. rewrite Q, Hq.
  eexists; eexists. split; [reflexivity|]. split; [reflexivity|]. split; [reflexivity|].
  cbv beta. cbn [mirror_config_offset mirror_size].
  subst m2. destruct (gen <? 11);
    cbn [vdev set_vdev update_vdev set_reg_long set_reg_quad config wmask
         emulated_config_bits set_config set_wmask set_emulated_config_bits
         fw_cfg_add_file set_fw_cfg];
    change (Z.to_nat 2) with 2%nat;
    [change (Z.to_nat 4) with 4%nat | change (Z.to_nat 8) with 8%nat];
    unfold pci_set_long, pci_set_quad, pci_get_long;
    rewrite ?load_store_le_prefix by lia;
    rewrite ?(load_le_store_other _ IGD_BDSM), ?(load_le_store_other _ IGD_BDSM_GEN11)
      by (unfold IGD_GMCH, IGD_BDSM, IGD_BDSM_GEN11; simpl; lia);
    rewrite ?load_store_le_prefix by (simpl; lia);
    unfold u32, u64; simpl Z.of_nat;
    repeat split; try reflexivity.
  all: change (8 * 4) with 32; change (8 * 2) with 16; rewrite Z.mod_mod by lia; reflexivity.
Qed.

Lemma bar0_bar4_mirrors_witness :
  let h := sample_host 0x1234 0 in
  let m := sample_machine (sample_vdev 0x1912 0 false) None in
  let m2 := fst (vfio_probe_igd_bar4_quirk h (vfio_probe_igd_bar0_quirk m 0) 4) in
  vfio_probe_igd_bar4_quirk h (vfio_probe_igd_bar0_quirk m 0) 4 = (m2, Bar4Enabled) /\
  exists bdsm ggc,
    bar_quirks (vdev m2) 0 = (bdsm :: ggc :: bar_quirks (vdev m) 0)%list /\
    mirror_offset bdsm = IGD_BDSM_MMIO_OFFSET /\ mirror_offset ggc = IGD_GGC_MMIO_OFFSET /\
    let rd a q := load_le a (mirror_config_offset q) (Z.to_nat (mirror_size q)) in
    rd (config (vdev m2)) bdsm = 0 /\
    rd (wmask (vdev m2)) bdsm = 2 ^ (8 * mirror_size bdsm) - 1 /\
    rd (emulated_config_bits (vdev m2)) bdsm = 2 ^ (8 * mirror_size bdsm) - 1 /\
    rd (config (vdev m2)) ggc = pci_get_long (config (vdev m2)) IGD_GMCH mod 2 ^ 16 /\
    rd (wmask (vdev m2)) ggc = 0 /\
    rd (emulated_config_bits (vdev m2)) ggc = 0xffff.
Proof.
  cbv zeta.
  assert (Hrun : vfio_probe_igd_bar4_quirk (sample_host 0x1234 0)
      (vfio_probe_igd_bar0_quirk (sample_machine (sample_vdev 0x1912 0 false) None) 0) 4 =
    (fst (vfio_probe_igd_bar4_quirk (sample_host 0x1234 0)
      (vfio_probe_igd_bar0_quirk (sample_machine (sample_vdev 0x1912 0 false) None) 0) 4),
     Bar4Enabled)).
  { rewrite (surjective_pairing (vfio_probe_igd_bar4_quirk _ _ 4)) at 1.
    f_equal; vm_compute; reflexivity. }
  split; [exact Hrun|].
  exact (bar0_bar4_mirrors _ _ _ Hrun).
Defined.

(** X15: on an Intel VGA device at 00:02.0, the BAR0 quirk (which tests
    [gen < 6]) and the BAR4 quirk (which tests [gen == -1]) reject the same
    devices: BAR0 is left unchanged exactly when the generation is unknown,
    which is exactly when the BAR4 quirk stops as unsupported. *)
Theorem bar0_bar4_same_generations (h : Host) (m : Machine) :
  vfio_pci_is (vdev m) PCI_VENDOR_ID_INTEL = true -> is_vga (vdev m) = true ->
  at_igd_address (vdev m) = true ->
  (vfio_probe_igd_bar0_quirk m 0 = m <-> igd_gen (device_id (vdev m)) = -1) /\
  (snd (vfio_probe_igd_bar4_quirk h m 4) = Bar4Unsupported <->
   igd_gen (device_id (vdev m)) = -1).
Proof.
  intros Hi Hv Ha. split.
  - split.
    + intros E. destruct (igd_gen_values (device_id (vdev m))) as [G|G]; [exact G|].
      exfalso. apply (f_equal (fun m => List.length (bar_quirks (vdev m) 0))) in E.
      revert E. unfold vfio_probe_igd_bar0_quirk. cbv zeta. rewrite Hi, Hv, Ha.
      replace (igd_gen (device_id (vdev m)) <? 6) with false
        by (symmetry; apply Z.ltb_ge; lia).
      cbn. lia.
    + intros G. apply bar0_quirk_noop. lia.
  - destruct (vfio_probe_igd_bar4_quirk h m 4) as [m' e] eqn:H. cbn [snd].
    unfold vfio_probe_igd_bar4_quirk in H. cbv zeta in H. rewrite Hi, Hv, Ha in H.
    cbn [negb orb Z.eqb Pos.eqb] in H.
    destruct (igd_gen (device_id (vdev m)) =? -1) eqn:G.
    + apply Z.eqb_eq in G. injection H as _ <-. split; intros; [exact G|reflexivity].
    + apply Z.eqb_neq in G. split; [|intros; contradiction]. intros ->. exfalso.
      destruct (_ && _); [injection H as _ H; discriminate|].
      destruct (hotplugged (vdev m)); [injection H as _ H; discriminate|].
      set (m0 := add_io m (IoRegionInfo VFIO_PCI_ROM_REGION_INDEX)) in H.
      set (c := negb (Z.testbit (u32 (gmch_config h)) 1) && negb (vga (vdev m0))) in H.
      destruct (if c then let '(m, ok) := vfio_populate_vga h m0 in (m, negb ok)
                else (m0, false)) as [m1 vf].
      destruct vf; [injection H as _ H; discriminate|].
      destruct (vfio_pci_igd_setup_opregion h m1) as [m2 r2].
      destruct r2 as [|er]; [|injection H as _ H; discriminate].
      destruct (vfio_pci_igd_setup_lpc_bridge h m2) as [m3 r3].
      destruct r3 as [|er]; [|injection H as _ H; discriminate].
      destruct (vfio_igd_apply_gms m3 (igd_gen (device_id (vdev m))) (u32 (gmch_config h)))
        as [m4 g].
      apply (f_equal snd) in H. destruct (_ <? 11); cbn [snd] in H; discriminate.
Qed.

Lemma bar0_bar4_same_generations_witness :
  let h := sample_host 0x1234 0 in
  let m := sample_machine (sample_vdev 0x1912 0 false) None in
  (vfio_pci_is (vdev m) PCI_VENDOR_ID_INTEL = true /\ is_vga (vdev m) = true /\
   at_igd_address (vdev m) = true) /\
  (vfio_probe_igd_bar0_quirk m 0 = m <-> igd_gen (device_id (vdev m)) = -1) /\
  (snd (vfio_probe_igd_bar4_quirk h m 4) = Bar4Unsupported <->
   igd_gen (device_id (vdev m)) = -1).
Proof.
  cbv zeta. split; [split; [reflexivity|split; reflexivity]|].
  exact (bar0_bar4_same_generations (sample_host 0x1234 0)
           (sample_machine (sample_vdev 0x1912 0 false) None) eq_refl eq_refl eq_refl).
Defined.

(** X3: when every entry of the table reads in full, [vfio_pci_igd_copy]
    returns 0, issues one [pread] per entry in table order, and the config
    array holds the host's bytes on every register of the table and is
    unchanged elsewhere. *)
Theorem igd_copy_complete (h : Host) (info : vfio_region_info) (l : list (Z * Z))
    (m : Machine) (cfg : bytes) :
  (forall off len, In (off, len) l ->
     0 <= len < 2 ^ 31 /\ pread_count h len (ri_offset info + off) = len) ->
  let '(m', cfg', r) := vfio_pci_igd_copy h m cfg info l in
  r = 0 /\
  m' = set_io m (io m ++ map (copy_read info) l) /\
  forall i, cfg' i = if existsb (covers i) l then fd_bytes h (ri_offset info + i) else cfg i.
Proof. apply igd_copy_full. Qed.

(** X4: [vfio_pci_igd_copy] stops at the first short read: it returns
    [-errno], logs one error, and issues no [pread] for the later entries. *)
Theorem igd_copy_stops_at_short_read (h : Host) (info : vfio_region_info)
    (pre post : list (Z * Z)) (off len : Z) (m : Machine) (cfg : bytes) :
  (forall o n, In (o, n) pre ->
     0 <= n < 2 ^ 31 /\ pread_count h n (ri_offset info + o) = n) ->
  to_int (pread_count h len (ri_offset info + off)) <> len ->
  let '(m', cfg', r) := vfio_pci_igd_copy h m cfg info (pre ++ (off, len) :: post) in
  r = - errno h /\
  m' = set_log (set_io m (io m ++ map (copy_read info) (pre ++ [(off, len)])))
               (log m ++ [MsgCopyFailed]).
Proof. apply igd_copy_short. Qed.

(** X7: bridge setup, whatever its outcome, leaves the assigned device and
    the fw_cfg files alone and changes no slot of the root bus other than
    00.0 and 1f.0. *)
Theorem setup_lpc_bridge_slots (h : Host) (m : Machine) :
  let m' := fst (vfio_pci_igd_setup_lpc_bridge h m) in
  vdev m' = vdev m /\ fw_cfg m' = fw_cfg m /\
  forall df, df <> PCI_DEVFN 0 0 -> df <> PCI_DEVFN 0x1f 0 ->
             root_bus m' df = root_bus m df.
Proof. apply setup_lpc_bridge_keeps. Qed.

Lemma igd_copy_complete_witness :
  let h := sample_host 0 0 in
  let info := {| ri_size := 0x100; ri_offset := 0xb0000 |} in
  let m := sample_machine (sample_vdev 0x1912 0 false) None in
  (forall off len, In (off, len) igd_lpc_bridge_infos ->
     0 <= len < 2 ^ 31 /\ pread_count h len (ri_offset info + off) = len) /\
  let '(m', cfg', r) := vfio_pci_igd_copy h m zero_bytes info igd_lpc_bridge_infos in
  r = 0 /\
  m' = set_io m (io m ++ map (copy_read info) igd_lpc_bridge_infos) /\
  forall i, cfg' i = if existsb (covers i) igd_lpc_bridge_infos
                     then fd_bytes h (ri_offset info + i) else zero_bytes i.
Proof.
  cbv zeta.
  assert (Hl : forall off len, In (off, len) igd_lpc_bridge_infos ->
     0 <= len < 2 ^ 31 /\
     pread_count (sample_host 0 0) len
       (ri_offset {| ri_size := 0x100; ri_offset := 0xb0000 |} + off) = len).
  { intros off len Hin. simpl in Hin.
    repeat destruct Hin as [Hin|Hin]; try contradiction; injection Hin as <- <-;
      (split; [lia|reflexivity]). }
  split; [exact Hl|].
  exact (igd_copy_complete (sample_host 0 0) {| ri_size := 0x100; ri_offset := 0xb0000 |}
           igd_lpc_bridge_infos (sample_machine (sample_vdev 0x1912 0 false) None)
           zero_bytes Hl).
Defined.

Lemma igd_copy_stops_at_short_read_witness :
  let h := sample_host_short_at 0xb0002 5 in
  let info := {| ri_size := 0x100; ri_offset := 0xb0000 |} in
  let m := sample_machine (sample_vdev 0x1912 0 false) None in
  let pre := [(PCI_VENDOR_ID, 2)] in
  let post := [(PCI_REVISION_ID, 2); (PCI_SUBSYSTEM_VENDOR_ID, 2); (PCI_SUBSYSTEM_ID, 2)] in
  ((forall o n, In (o, n) pre ->
     0 <= n < 2 ^ 31 /\ pread_count h n (ri_offset info + o) = n) /\
   to_int (pread_count h 2 (ri_offset info + PCI_DEVICE_ID)) <> 2) /\
  let '(m', cfg', r) :=
    vfio_pci_igd_copy h m zero_bytes info (pre ++ (PCI_DEVICE_ID, 2) :: post) in
  r = - errno h /\
  m' = set_log (set_io m (io m ++ map (copy_read info) (pre ++ [(PCI_DEVICE_ID, 2)])))
               (log m ++ [MsgCopyFailed]).
Proof.
  cbv zeta.
  assert (Hp : forall o n, In (o, n) [(PCI_VENDOR_ID, 2)] ->
     0 <= n < 2 ^ 31 /\
     pread_count (sample_host_short_at 0xb0002 5) n
       (ri_offset {| ri_size := 0x100; ri_offset := 0xb0000 |} + o) = n).
  { intros o n Hin. simpl in Hin.
    destruct Hin as [Hin|Hin]; [|contradiction]. injection Hin as <- <-.
    split; [lia|reflexivity]. }
  assert (Hs : to_int (pread_count (sample_host_short_at 0xb0002 5) 2
       (ri_offset {| ri_size := 0x100; ri_offset := 0xb0000 |} + PCI_DEVICE_ID)) <> 2)
    by (vm_compute; discriminate).
  split; [split; [exact Hp|exact Hs]|].
  exact (igd_copy_stops_at_short_read (sample_host_short_at 0xb0002 5)
           {| ri_size := 0x100; ri_offset := 0xb0000 |} [(PCI_VENDOR_ID, 2)]
           [(PCI_REVISION_ID, 2); (PCI_SUBSYSTEM_VENDOR_ID, 2); (PCI_SUBSYSTEM_ID, 2)]
           PCI_DEVICE_ID 2 (sample_machine (sample_vdev 0x1912 0 false) None)
           zero_bytes Hp Hs).
Defined.

Lemma setup_opregion_full_read_witness :
  let h := sample_host 0 0 in
  let m := sample_machine (sample_vdev 0x1912 0 false) None in
  let info := {| ri_size := 0x2000; ri_offset := 0x90000 |} in
  (hotplugged (vdev m) = false /\
   dev_region_info h VFIO_REGION_SUBTYPE_INTEL_IGD_OPREGION = Some info /\
   0 <= ri_size info < 2 ^ 31 /\
   pread_count h (ri_size info) (ri_offset info) = ri_size info) /\
  let c := map (fun i => fd_bytes h (ri_offset info + Z.of_nat i))
               (seq 0 (Z.to_nat (ri_size info))) in
  let (m', r) := vfio_pci_igd_setup_opregion h m in
  r = Success /\
  igd_opregion (vdev m') = Some c /\
  fw_cfg m' = (fw_cfg m ++ [("etc/igd-opregion", c)])%list /\
  io m' = (io m ++ [IoDevRegionInfo VFIO_REGION_SUBTYPE_INTEL_IGD_OPREGION;
                    IoPread (ri_size info) (ri_offset info)])%list /\
  pci_get_long (config (vdev m')) IGD_ASLS = 0 /\
  pci_get_long (wmask (vdev m')) IGD_ASLS = 0xffffffff /\
  pci_get_long (emulated_config_bits (vdev m')) IGD_ASLS = 0xffffffff.
Proof.
  cbv zeta.
  assert (H1 : hotplugged (vdev (sample_machine (sample_vdev 0x1912 0 false) None)) = false)
    by reflexivity.
  assert (H2 : dev_region_info (sample_host 0 0) VFIO_REGION_SUBTYPE_INTEL_IGD_OPREGION =
               Some {| ri_size := 0x2000; ri_offset := 0x90000 |}) by reflexivity.
  assert (H3 : 0 <= ri_size {| ri_size := 0x2000; ri_offset := 0x90000 |} < 2 ^ 31)
    by (simpl; lia).
  assert (H4 : pread_count (sample_host 0 0) (ri_size {| ri_size := 0x2000; ri_offset := 0x90000 |})
                 (ri_offset {| ri_size := 0x2000; ri_offset := 0x90000 |}) =
               ri_size {| ri_size := 0x2000; ri_offset := 0x90000 |}) by reflexivity.
  split; [split; [exact H1|split; [exact H2|split; [exact H3|exact H4]]]|].
  exact (setup_opregion_full_read (sample_host 0 0)
           (sample_machine (sample_vdev 0x1912 0 false) None)
           {| ri_size := 0x2000; ri_offset := 0x90000 |} H1 H2 H3 H4).
Defined.

Lemma opregion_init_large_region_fails_witness :
  let h := sample_host 0 0 in
  let m := sample_machine (sample_vdev 0x1912 0 false) None in
  let info := {| ri_size := 2 ^ 31; ri_offset := 0x90000 |} in
  2 ^ 31 <= ri_size info < 2 ^ 64 - 2 ^ 31 /\
  let (m', r) := vfio_pci_igd_opregion_init h m info in
  r = Failure ReadFailed /\ igd_opregion (vdev m') = None /\ fw_cfg m' = fw_cfg m.
Proof.
  cbv zeta.
  assert (Hs : 2 ^ 31 <= ri_size {| ri_size := 2 ^ 31; ri_offset := 0x90000 |} < 2 ^ 64 - 2 ^ 31)
    by (simpl; lia).
  split; [exact Hs|].
  exact (opregion_init_large_region_fails (sample_host 0 0)
           (sample_machine (sample_vdev 0x1912 0 false) None)
           {| ri_size := 2 ^ 31; ri_offset := 0x90000 |} Hs).
Defined.

Lemma setup_lpc_bridge_full_copy_witness :
  let h := sample_host 0 0 in
  let m := sample_machine (sample_vdev 0x1912 0 false) None in
  let lpc := {| ri_size := 0x100; ri_offset := 0xb0000 |} in
  let host := {| ri_size := 0x100; ri_offset := 0xa0000 |} in
  let hb := sample_host_bridge in
  (hotplugged (vdev m) = false /\
   (forall d, root_bus m (PCI_DEVFN 0x1f 0) = Some d ->
              object_dynamic_cast d TYPE_VFIO_PCI_IGD_LPC_BRIDGE = true) /\
   dev_region_info h VFIO_REGION_SUBTYPE_INTEL_IGD_LPC_CFG = Some lpc /\
   dev_region_info h VFIO_REGION_SUBTYPE_INTEL_IGD_HOST_CFG = Some host /\
   root_bus m (PCI_DEVFN 0 0) = Some hb /\
   (forall off len, In (off, len) igd_lpc_bridge_infos ->
      pread_count h len (ri_offset lpc + off) = len) /\
   (forall off len, In (off, len) igd_host_bridge_infos ->
      pread_count h len (ri_offset host + off) = len)) /\
  let old := match root_bus m (PCI_DEVFN 0x1f 0) with
             | Some d => d | None => new_lpc_bridge h end in
  let (m', r) := vfio_pci_igd_setup_lpc_bridge h m in
  r = Success /\
  (exists d, root_bus m' (PCI_DEVFN 0x1f 0) = Some d /\
     pd_types d = pd_types old /\
     object_dynamic_cast d TYPE_VFIO_PCI_IGD_LPC_BRIDGE = true /\
     vfio_pci_igd_lpc_bridge_realize (PCI_DEVFN 0x1f 0) = None /\
     forall i, pd_config d i =
       if existsb (covers i) igd_lpc_bridge_infos
       then fd_bytes h (ri_offset lpc + i) else pd_config old i) /\
  (exists d, root_bus m' (PCI_DEVFN 0 0) = Some d /\
     pd_types d = pd_types hb /\
     forall i, pd_config d i =
       if existsb (covers i) igd_host_bridge_infos
       then fd_bytes h (ri_offset host + i) else pd_config hb i) /\
  log m' = log m /\
  io m' = (io m ++ [IoDevRegionInfo VFIO_REGION_SUBTYPE_INTEL_IGD_LPC_CFG;
                    IoDevRegionInfo VFIO_REGION_SUBTYPE_INTEL_IGD_HOST_CFG] ++
           map (copy_read lpc) igd_lpc_bridge_infos ++
           map (copy_read host) igd_host_bridge_infos)%list.
Proof.
  cbv zeta.
  assert (H2 : forall d, root_bus (sample_machine (sample_vdev 0x1912 0 false) None)
                           (PCI_DEVFN 0x1f 0) = Some d ->
               object_dynamic_cast d TYPE_VFIO_PCI_IGD_LPC_BRIDGE = true)
    by (intros d Hd; vm_compute in Hd; discriminate).
  assert (H6 : forall off len, In (off, len) igd_lpc_bridge_infos ->
      pread_count (sample_host 0 0) len
        (ri_offset {| ri_size := 0x100; ri_offset := 0xb0000 |} + off) = len)
    by (intros off len _; simpl; lia).
  assert (H7 : forall off len, In (off, len) igd_host_bridge_infos ->
      pread_count (sample_host 0 0) len
        (ri_offset {| ri_size := 0x100; ri_offset := 0xa0000 |} + off) = len)
    by (intros off len _; simpl; lia).
  split; [split; [reflexivity|split; [exact H2|split; [reflexivity|split; [reflexivity|
          split; [reflexivity|split; [exact H6|exact H7]]]]]]|].
  exact (setup_lpc_bridge_full_copy (sample_host 0 0)
           (sample_machine (sample_vdev 0x1912 0 false) None)
           {| ri_size := 0x100; ri_offset := 0xb0000 |}
           {| ri_size := 0x100; ri_offset := 0xa0000 |} sample_host_bridge
           eq_refl H2 eq_refl eq_refl eq_refl H6 H7).
Defined.

Lemma setup_lpc_bridge_short_read_errno_zero_witness :
  let h := sample_host_short_at 0xb0000 0 in
  let m := sample_machine (sample_vdev 0x1912 0 false) None in
  let lpc := {| ri_size := 0x100; ri_offset := 0xb0000 |} in
  let host := {| ri_size := 0x100; ri_offset := 0xa0000 |} in
  (hotplugged (vdev m) = false /\
   (forall d, root_bus m (PCI_DEVFN 0x1f 0) = Some d ->
              object_dynamic_cast d TYPE_VFIO_PCI_IGD_LPC_BRIDGE = true) /\
   dev_region_info h VFIO_REGION_SUBTYPE_INTEL_IGD_LPC_CFG = Some lpc /\
   dev_region_info h VFIO_REGION_SUBTYPE_INTEL_IGD_HOST_CFG = Some host /\
   root_bus m (PCI_DEVFN 0 0) = Some sample_host_bridge /\
   errno h = 0 /\
   to_int (pread_count h 2 (ri_offset lpc + PCI_VENDOR_ID)) <> 2 /\
   (forall off len, In (off, len) igd_host_bridge_infos ->
      pread_count h len (ri_offset host + off) = len)) /\
  let (m', r) := vfio_pci_igd_setup_lpc_bridge h m in
  r = Success /\
  log m' = (log m ++ [MsgCopyFailed])%list /\
  io m' = (io m ++ [IoDevRegionInfo VFIO_REGION_SUBTYPE_INTEL_IGD_LPC_CFG;
                    IoDevRegionInfo VFIO_REGION_SUBTYPE_INTEL_IGD_HOST_CFG;
                    IoPread 2 (ri_offset lpc + PCI_VENDOR_ID)] ++
           map (copy_read host) igd_host_bridge_infos)%list.
Proof.
  cbv zeta.
  assert (H2 : forall d, root_bus (sample_machine (sample_vdev 0x1912 0 false) None)
                           (PCI_DEVFN 0x1f 0) = Some d ->
               object_dynamic_cast d TYPE_VFIO_PCI_IGD_LPC_BRIDGE = true)
    by (intros d Hd; vm_compute in Hd; discriminate).
  assert (H7 : to_int (pread_count (sample_host_short_at 0xb0000 0) 2
                 (ri_offset {| ri_size := 0x100; ri_offset := 0xb0000 |} + PCI_VENDOR_ID)) <> 2)
    by (vm_compute; discriminate).
  assert (H8 : forall off len, In (off, len) igd_host_bridge_infos ->
      pread_count (sample_host_short_at 0xb0000 0) len
        (ri_offset {| ri_size := 0x100; ri_offset := 0xa0000 |} + off) = len).
  { intros off len Hin. simpl in Hin.
    repeat destruct Hin as [Hin|Hin]; try contradiction; injection Hin as <- <-;
      reflexivity. }
  split; [split; [reflexivity|split; [exact H2|split; [reflexivity|split; [reflexivity|
          split; [reflexivity|split; [reflexivity|split; [exact H7|exact H8]]]]]]]|].
  exact (setup_lpc_bridge_short_read_errno_zero (sample_host_short_at 0xb0000 0)
           (sample_machine (sample_vdev 0x1912 0 false) None)
           {| ri_size := 0x100; ri_offset := 0xb0000 |}
           {| ri_size := 0x100; ri_offset := 0xa0000 |} sample_host_bridge
           eq_refl H2 eq_refl eq_refl eq_refl eq_refl H7 H8).
Defined.
